(** * Expense tracker: conversion, aggregation and form handling

    A shallow embedding of [src/app/page.tsx] (the [Home] component) and the
    properties of its currency conversion ([convertToVND]), its aggregation
    ([categorySums], [totalSum]), its submit handler ([handleSubmit]) and its
    rate refresh ([fetchExchangeRates]).

    Numbers.  A JavaScript [number] is modelled as a rational or one of the
    three special values NaN, +Infinity, -Infinity.  [parseFloat] and
    [Math.round] return the binary64 number the code gets.  The operators
    [+], [*] and [/] follow the IEEE-754 rules for the special values and
    are exact on finite values: the rounding of their results to binary64
    is not modelled, nor is the sign of zero.  The properties of sums and
    products are therefore stated in the order in which the code computes
    them. *)

From Stdlib Require Import ZArith QArith Qround Qabs List String Ascii Bool.
From Stdlib Require Import Lia Lqa Setoid Morphisms Sorted Permutation.
Import ListNotations.

Local Open Scope Z_scope.
Local Open Scope Q_scope.

(* ================================================================== *)
(** ** JavaScript numbers *)

Module JS.

Inductive number : Type :=
| Num (q : Q)              (* a finite value *)
| Inf (negative : bool)    (* Infinity, -Infinity *)
| NaN.

Definition zero : number := Num 0.
Definition one : number := Num 1.

(** [x + y] *)
Definition add (x y : number) : number :=
  match x, y with
  | NaN, _ | _, NaN => NaN
  | Inf s, Inf t => if Bool.eqb s t then Inf s else NaN
  | Inf s, Num _ | Num _, Inf s => Inf s
  | Num a, Num b => Num (a + b)
  end.

(** [x - y] *)
Definition sub (x y : number) : number :=
  match x, y with
  | NaN, _ | _, NaN => NaN
  | Inf s, Inf t => if Bool.eqb s t then NaN else Inf s
  | Inf s, Num _ => Inf s
  | Num _, Inf s => Inf (negb s)
  | Num a, Num b => Num (a - b)
  end.

(** Sign of a finite factor applied to an infinity; a zero factor gives NaN. *)
Definition scaleInf (s : bool) (a : Q) : number :=
  match a ?= 0 with
  | Eq => NaN
  | Lt => Inf (negb s)
  | Gt => Inf s
  end.

(** [x * y] *)
Definition mul (x y : number) : number :=
  match x, y with
  | NaN, _ | _, NaN => NaN
  | Inf s, Inf t => Inf (xorb s t)
  | Inf s, Num a | Num a, Inf s => scaleInf s a
  | Num a, Num b => Num (a * b)
  end.

(** [x / y].  A finite non-zero value divided by zero is an infinity with the
    sign of the numerator, and 0/0 is NaN. *)
Definition div (x y : number) : number :=
  match x, y with
  | NaN, _ | _, NaN => NaN
  | Inf _, Inf _ => NaN
  | Inf s, Num b => if Qlt_le_dec b 0 then Inf (negb s) else Inf s
  | Num _, Inf _ => Num 0
  | Num a, Num b =>
      if Qeq_bool b 0
      then match a ?= 0 with
           | Eq => NaN
           | Lt => Inf true
           | Gt => Inf false
           end
      else Num (a / b)
  end.

(** The integer nearest to [q], the upper one on a tie. *)
Definition nearest (q : Q) : Z := Qfloor (q + (1 # 2)).

(** [Math.round]: the nearest integer, a tie going towards +Infinity. *)
Definition round (x : number) : number :=
  match x with
  | Num q => Num (inject_Z (nearest q))
  | _ => x
  end.

(** [x <= y] *)
Definition lessEq (x y : number) : bool :=
  match x, y with
  | NaN, _ | _, NaN => false
  | Inf true, _ => true
  | _, Inf false => true
  | Inf false, _ => false
  | _, Inf true => false
  | Num a, Num b => Qle_bool a b
  end.

(** [isNaN] on a number. *)
Definition isNaN (x : number) : bool :=
  match x with
  | NaN => true
  | _ => false
  end.

Definition isFinite (x : number) : bool :=
  match x with
  | Num _ => true
  | _ => false
  end.

(** Numeric equality of two values: the same special value, or equal
    rationals. *)
Definition num_eq (x y : number) : Prop :=
  match x, y with
  | Num a, Num b => a == b
  | Inf s, Inf t => s = t
  | NaN, NaN => True
  | _, _ => False
  end.

(** *** [parseFloat]

    [parseFloat] drops leading white space and line terminators and reads
    the longest prefix that is a [StrDecimalLiteral]: an optional sign
    followed by [Infinity], by digits with an optional fraction, or by a
    fraction, and then an optional exponent.  Without such a prefix the
    result is NaN.  The value of the literal is rounded to the nearest
    binary64 number, a tie going to the even significand, and is an infinity
    from [2^1024 - 2^970] on.  A string is its sequence of UTF-8 bytes. *)

Definition isWhiteSpace (c : ascii) : bool :=
  let n := nat_of_ascii c in
  ((9 <=? n) && (n <=? 13))%nat || (n =? 32)%nat.

(** U+00A0 in UTF-8. *)
Definition isWhiteSpace2 (a b : ascii) : bool :=
  ((nat_of_ascii a =? 194) && (nat_of_ascii b =? 160))%nat.

(** U+1680, U+2000 to U+200A, U+2028, U+2029, U+202F, U+205F, U+3000 and
    U+FEFF in UTF-8. *)
Definition isWhiteSpace3 (a b c : ascii) : bool :=
  let x := nat_of_ascii a in
  let y := nat_of_ascii b in
  let z := nat_of_ascii c in
  ((x =? 225) && (y =? 154) && (z =? 128)
   || (x =? 226) && (y =? 128)
      && ((128 <=? z) && (z <=? 138) || (z =? 168) || (z =? 169) || (z =? 175))
   || (x =? 226) && (y =? 129) && (z =? 159)
   || (x =? 227) && (y =? 128) && (z =? 128)
   || (x =? 239) && (y =? 187) && (z =? 191))%nat.

Fixpoint trimStart (s : string) : string :=
  match s with
  | String a s1 =>
      if isWhiteSpace a then trimStart s1
      else
        match s1 with
        | String b s2 =>
            if isWhiteSpace2 a b then trimStart s2
            else
              match s2 with
              | String c s3 =>
                  if isWhiteSpace3 a b c then trimStart s3 else s
              | EmptyString => s
              end
        | EmptyString => s
        end
  | EmptyString => EmptyString
  end.

(** For [q > 0], the integer [k] with [2^k <= q < 2^(k+1)]. *)
Definition floorLog2 (q : Q) : Z :=
  let k := (Z.log2 (Qnum q) - Z.log2 (Zpos (Qden q)))%Z in
  if Qle_bool (Qpower 2 k) q then k else (k - 1)%Z.

(** The integer nearest to [x], the even one on a tie. *)
Definition roundHalfEven (x : Q) : Z :=
  let f := Qfloor x in
  match Qcompare (x - inject_Z f) (1 # 2) with
  | Lt => f
  | Gt => (f + 1)%Z
  | Eq => if Z.even f then f else (f + 1)%Z
  end.

(** The binary64 number nearest to [q >= 0]: a significand of at most 53
    bits at an exponent of at least -1074, or Infinity when that reaches
    [2^1024]. *)
Definition toBinary64 (q : Q) : number :=
  if Qeq_bool q 0 then Num 0
  else
    let e := Z.max (- 1074) (floorLog2 q - 52) in
    let m := roundHalfEven (q / Qpower 2 e) in
    let v := inject_Z m * Qpower 2 e in
    if Qle_bool (Qpower 2 1024) v then Inf false else Num (Qred v).

Definition digit (c : ascii) : option Z :=
  let n := nat_of_ascii c in
  if ((48 <=? n) && (n <=? 57))%nat then Some (Z.of_nat n - 48)%Z else None.

(** The longest run of decimal digits at the head of [s]: its value
    continuing [acc], the number of digits read plus [n], and the rest. *)
Fixpoint decimalDigits (s : string) (acc : Z) (n : nat) : Z * nat * string :=
  match s with
  | String c s' =>
      match digit c with
      | Some d => decimalDigits s' (10 * acc + d)%Z (S n)
      | None => (acc, n, s)
      end
  | EmptyString => (acc, n, s)
  end.

(** [ExponentPart], when present: [e] or [E], an optional sign and at least
    one digit. The result is the exponent, 0 when there is no such part. *)
Definition exponentPart (s : string) : Z :=
  match s with
  | String c s' =>
      if (Ascii.eqb c "e" || Ascii.eqb c "E")%bool then
        match s' with
        | String sg s'' =>
            if Ascii.eqb sg "+" then
              match decimalDigits s'' 0 0 with
              | (_, O, _) => 0%Z
              | (e, _, _) => e
              end
            else if Ascii.eqb sg "-" then
              match decimalDigits s'' 0 0 with
              | (_, O, _) => 0%Z
              | (e, _, _) => (- e)%Z
              end
            else
              match decimalDigits s' 0 0 with
              | (_, O, _) => 0%Z
              | (e, _, _) => e
              end
        | EmptyString => 0%Z
        end
      else 0%Z
  | EmptyString => 0%Z
  end.

Definition pow10 (e : Z) : Q := Qpower 10 e.

(** [StrUnsignedDecimalLiteral] at the head of [s]. *)
Definition unsignedDecimalLiteral (s : string) : number :=
  if prefix "Infinity" s then Inf false
  else
    let '(int, ni, rest) := decimalDigits s 0 0 in
    match rest with
    | String "." rest' =>
        let '(mant, nd, rest'') := decimalDigits rest' int ni in
        match nd with
        | O => NaN
        | _ =>
            toBinary64 (inject_Z mant / pow10 (Z.of_nat (nd - ni))
                        * pow10 (exponentPart rest''))
        end
    | _ =>
        match ni with
        | O => NaN
        | _ => toBinary64 (inject_Z int * pow10 (exponentPart rest))
        end
    end.

Definition neg (x : number) : number :=
  match x with
  | Num q => Num (- q)
  | Inf s => Inf (negb s)
  | NaN => NaN
  end.

Definition parseFloat (s : string) : number :=
  match trimStart s with
  | String "+" s' => unsignedDecimalLiteral s'
  | String "-" s' => neg (unsignedDecimalLiteral s')
  | s' => unsignedDecimalLiteral s'
  end.

(** A string is falsy exactly when it is empty. *)
Definition truthy (s : string) : bool :=
  match s with
  | EmptyString => false
  | _ => true
  end.

End JS.

Import JS.

(* ================================================================== *)
(** ** Data model of [page.tsx] *)

Module Currency.
Inductive t : Type := EUR | USD | VND.

Definition eqb (a b : t) : bool :=
  match a, b with
  | EUR, EUR | USD, USD | VND, VND => true
  | _, _ => false
  end.
End Currency.

(** The entries of [categories], in order. The form's [select] offers these
    and nothing else, and the [category] state starts at the first. *)
Inductive Category : Type :=
| Restaurant | Supermarket | Groceries | Furniture | Other.

Definition categories : list Category :=
  [Restaurant; Supermarket; Groceries; Furniture; Other].

Definition categoryName (c : Category) : string :=
  match c with
  | Restaurant => "Eating in the restaurant"
  | Supermarket => "Supermarket for food"
  | Groceries => "Groceries"
  | Furniture => "Furniture"
  | Other => "Other"
  end.

Definition Category_eqb (a b : Category) : bool :=
  match a, b with
  | Restaurant, Restaurant | Supermarket, Supermarket
  | Groceries, Groceries | Furniture, Furniture | Other, Other => true
  | _, _ => false
  end.

Module Expense.
Record t : Type := make {
  id : Z;
  amount : number;
  currency : Currency.t;
  category : Category;
  description : string
}.
End Expense.

Module ExchangeRates.
Record t : Type := make { EUR : number; USD : number; VND : number }.

(** [exchangeRates[c]] *)
Definition get (r : t) (c : Currency.t) : number :=
  match c with
  | Currency.EUR => EUR r
  | Currency.USD => USD r
  | Currency.VND => VND r
  end.
End ExchangeRates.

(** [CategorySum] is the intersection of a record over the three currencies
    with [{ VND : number }]: three fields, the second [VND] being the first. *)
Module CategorySum.
Record t : Type := make { EUR : number; USD : number; VND : number }.

Definition get (s : t) (c : Currency.t) : number :=
  match c with
  | Currency.EUR => EUR s
  | Currency.USD => USD s
  | Currency.VND => VND s
  end.

(** [s[c] = v] *)
Definition set (s : t) (c : Currency.t) (v : number) : t :=
  match c with
  | Currency.EUR => make v (USD s) (VND s)
  | Currency.USD => make (EUR s) v (VND s)
  | Currency.VND => make (EUR s) (USD s) v
  end.

(** [{ EUR: 0, USD: 0, VND: 0 }] *)
Definition empty : t := make zero zero zero.
End CategorySum.

(** *** Conversion *)

(** [convertToEUR]; also the first line of [convertToVND]. *)
Definition convertToEUR (exchangeRates : ExchangeRates.t)
    (amount : number) (fromCurrency : Currency.t) : number :=
  match fromCurrency with
  | Currency.EUR => amount
  | _ => div amount (ExchangeRates.get exchangeRates fromCurrency)
  end.

Definition convertToVND (exchangeRates : ExchangeRates.t)
    (amount : number) (fromCurrency : Currency.t) : number :=
  let euroAmount :=
    match fromCurrency with
    | Currency.EUR => amount
    | _ => div amount (ExchangeRates.get exchangeRates fromCurrency)
    end in
  round (mul euroAmount (ExchangeRates.VND exchangeRates)).

(** *** Aggregation *)

(** [Record<string, CategorySum>]: the own properties of the object in the
    order of their creation, which is the order [Object.values] lists them
    in. *)
Definition Sums : Type := list (Category * CategorySum.t).

(** [sums[k]] *)
Fixpoint lookup (k : Category) (sums : Sums) : option CategorySum.t :=
  match sums with
  | [] => None
  | (k', v) :: rest => if Category_eqb k k' then Some v else lookup k rest
  end.

(** The object at [sums[k]] mutated by [f]; the property keeps its place. *)
Fixpoint modify (k : Category) (f : CategorySum.t -> CategorySum.t)
    (sums : Sums) : Sums :=
  match sums with
  | [] => []
  | (k', v) :: rest =>
      if Category_eqb k k' then (k', f v) :: rest
      else (k', v) :: modify k f rest
  end.

(** One round of the [forEach] of [categorySums]. *)
Definition addExpense (exchangeRates : ExchangeRates.t)
    (sums : Sums) (expense : Expense.t) : Sums :=
  let cat := Expense.category expense in
  let cur := Expense.currency expense in
  let amt := Expense.amount expense in
  (* if (!sums[expense.category]) sums[expense.category] = {EUR:0,USD:0,VND:0} *)
  let sums1 :=
    match lookup cat sums with
    | None => sums ++ [(cat, CategorySum.empty)]
    | Some _ => sums
    end in
  (* sums[expense.category][expense.currency] += expense.amount *)
  let sums2 :=
    modify cat (fun s => CategorySum.set s cur (add (CategorySum.get s cur) amt))
      sums1 in
  (* sums[expense.category].VND += convertToVND(expense.amount, expense.currency) *)
  modify cat
    (fun s => CategorySum.set s Currency.VND
                (add (CategorySum.VND s) (convertToVND exchangeRates amt cur)))
    sums2.

Definition categorySums (expenses : list Expense.t)
    (exchangeRates : ExchangeRates.t) : Sums :=
  fold_left (addExpense exchangeRates) expenses [].

(** [Object.values] *)
Definition values (sums : Sums) : list CategorySum.t := map snd sums.

Definition totalSum (categorySums : Sums) : CategorySum.t :=
  fold_left
    (fun total categorySum =>
       CategorySum.make
         (add (CategorySum.EUR total) (CategorySum.EUR categorySum))
         (add (CategorySum.USD total) (CategorySum.USD categorySum))
         (add (CategorySum.VND total) (CategorySum.VND categorySum)))
    (values categorySums) CategorySum.empty.

(** *** The component's state and its handlers *)

Inductive Toast : Type :=
| ToastError (message : string)
| ToastSuccess (message : string).

(** The [useState] cells of [Home], and the notifications raised so far. *)
Record Home : Type := mkHome {
  expenses : list Expense.t;
  amount : string;
  currency : Currency.t;
  category : Category;
  description : string;
  exchangeRates : ExchangeRates.t;
  isLoading : bool;
  toasts : list Toast
}.

(** The state at the first render: [categories[0]] is the first category and
    the rate table is [{ EUR: 1, USD: 1, VND: 1 }]. *)
Definition initial : Home :=
  mkHome [] "" Currency.EUR Restaurant ""
         (ExchangeRates.make one one one) false [].

Definition setAmount (v : string) (st : Home) : Home :=
  mkHome (expenses st) v (currency st) (category st) (description st)
         (exchangeRates st) (isLoading st) (toasts st).

Definition setCurrency (v : Currency.t) (st : Home) : Home :=
  mkHome (expenses st) (amount st) v (category st) (description st)
         (exchangeRates st) (isLoading st) (toasts st).

Definition setCategory (v : Category) (st : Home) : Home :=
  mkHome (expenses st) (amount st) (currency st) v (description st)
         (exchangeRates st) (isLoading st) (toasts st).

Definition setDescription (v : string) (st : Home) : Home :=
  mkHome (expenses st) (amount st) (currency st) (category st) v
         (exchangeRates st) (isLoading st) (toasts st).

Definition setExpenses (f : list Expense.t -> list Expense.t) (st : Home)
    : Home :=
  mkHome (f (expenses st)) (amount st) (currency st) (category st)
         (description st) (exchangeRates st) (isLoading st) (toasts st).

Definition setExchangeRates (v : ExchangeRates.t) (st : Home) : Home :=
  mkHome (expenses st) (amount st) (currency st) (category st)
         (description st) v (isLoading st) (toasts st).

Definition setIsLoading (v : bool) (st : Home) : Home :=
  mkHome (expenses st) (amount st) (currency st) (category st)
         (description st) (exchangeRates st) v (toasts st).

Definition toast (t : Toast) (st : Home) : Home :=
  mkHome (expenses st) (amount st) (currency st) (category st)
         (description st) (exchangeRates st) (isLoading st) (toasts st ++ [t]).

(** *** The amount field

    The amount is typed into an [<input type="number">], and [setAmount]
    receives the value of that element. The browser keeps such a value
    sanitised: it is the empty string unless what was typed is a valid
    floating-point number, namely an optional [-], digits or a fraction
    ([.] and digits) or both, and an optional exponent ([e] or [E], an
    optional sign and digits), that denotes a finite number. *)

Definition validFloatingPointNumber (s : string) : bool :=
  let unsigned :=
    match s with
    | String "-" s' => s'
    | _ => s
    end in
  let '(_, ni, rest) := decimalDigits unsigned 0 0 in
  let afterFraction :=
    match rest with
    | String "." rest' =>
        let '(_, nf, rest'') := decimalDigits rest' 0 0 in
        match nf with
        | O => None
        | _ => Some rest''
        end
    | _ =>
        match ni with
        | O => None
        | _ => Some rest
        end
    end in
  match afterFraction with
  | None => false
  | Some EmptyString => true
  | Some (String c tail) =>
      if (Ascii.eqb c "e" || Ascii.eqb c "E")%bool then
        let digits :=
          match tail with
          | String "+" t | String "-" t => t
          | _ => tail
          end in
        match decimalDigits digits 0 0 with
        | (_, S _, EmptyString) => true
        | _ => false
        end
      else false
  end.

(** A value the amount field can hold. *)
Definition numberInputValue (s : string) : bool :=
  match s with
  | EmptyString => true
  | _ => validFloatingPointNumber s && isFinite (parseFloat s)
  end.

(** The expense [handleSubmit] builds from the form; [now] is [Date.now()]. *)
Definition newExpense (now : Z) (st : Home) : Expense.t :=
  Expense.make now (parseFloat (amount st)) (currency st) (category st)
               (description st).

Definition handleSubmit (now : Z) (st : Home) : Home :=
  if negb (truthy (amount st)) || isNaN (parseFloat (amount st)) then
    toast (ToastError "Please enter a valid amount") st
  else
    let newExpense := newExpense now st in
    toast (ToastSuccess "Expense added successfully!")
      (setDescription ""
         (setAmount ""
            (setExpenses (fun prevExpenses => prevExpenses ++ [newExpense])
               st))).

(** What the two [await]s of [fetchExchangeRates] can deliver: [fetch]
    rejects, [response.json()] rejects, or a JSON value arrives. Of the
    value only [data.rates] is read: when it is absent, reading
    [data.rates.USD] throws inside the [try]; otherwise its [USD] and [VND]
    entries are stored (an entry that is no number acts as NaN in the
    arithmetic of [convertToVND]). *)
Inductive FetchResult : Type :=
| NetworkError
| ParseError
| Json (rates : option (number * number)).

(** [fetchExchangeRates] up to its first [await]. *)
Definition fetchStart (st : Home) : Home := setIsLoading true st.

(** [fetchExchangeRates] from the [await]s on: the [try] body, the [catch]
    and the [finally]. *)
Definition fetchSettle (r : FetchResult) (st : Home) : Home :=
  setIsLoading false
    match r with
    | Json (Some (usd, vnd)) =>
        setExchangeRates (ExchangeRates.make (Num 1) usd vnd) st
    | _ =>
        toast (ToastError "Failed to fetch exchange rates. Using default values.")
          st
    end.

Definition fetchExchangeRates (r : FetchResult) (st : Home) : Home :=
  fetchSettle r (fetchStart st).

(** Everything that changes the state of [Home]: the [onChange] handlers of
    the four form fields, the form's [onSubmit], and the two halves of a rate
    refresh (on mount and every hour). The events are taken in any order;
    the page itself is stricter, its submit button being disabled while
    [isLoading] holds. *)
Inductive Event : Type :=
| ChangeAmount (v : string)
| ChangeCurrency (v : Currency.t)
| ChangeCategory (v : Category)
| ChangeDescription (v : string)
| Submit (now : Z)
| FetchStart
| FetchSettle (r : FetchResult).

Definition step (st : Home) (ev : Event) : Home :=
  match ev with
  | ChangeAmount v => setAmount v st
  | ChangeCurrency v => setCurrency v st
  | ChangeCategory v => setCategory v st
  | ChangeDescription v => setDescription v st
  | Submit now => handleSubmit now st
  | FetchStart => fetchStart st
  | FetchSettle r => fetchSettle r st
  end.

Definition run (events : list Event) (st : Home) : Home :=
  fold_left step events st.

(** The memoised values of a render. *)
Definition renderCategorySums (st : Home) : Sums :=
  categorySums (expenses st) (exchangeRates st).

Definition renderTotalSum (st : Home) : CategorySum.t :=
  totalSum (renderCategorySums st).

(* ================================================================== *)
(** ** Quantities of the specification *)

(** The value [convertToVND] passes to [Math.round], in the words of the
    specification: an amount in the base currency is multiplied by the
    base-to-reporting rate; any other amount is first divided by its
    currency's rate per base unit. *)
Definition unroundedVND (rates : ExchangeRates.t) (amount : number)
    (c : Currency.t) : number :=
  if Currency.eqb c Currency.EUR
  then mul amount (ExchangeRates.VND rates)
  else mul (div amount (ExchangeRates.get rates c)) (ExchangeRates.VND rates).

(** Sum of a list of numbers, added from left to right starting at 0. *)
Definition sum (l : list number) : number := fold_left add l zero.

(** The expenses of one category, in sequence order. *)
Definition inCategory (cat : Category) (expenses : list Expense.t)
    : list Expense.t :=
  filter (fun e => Category_eqb (Expense.category e) cat) expenses.

Definition converted (rates : ExchangeRates.t) (e : Expense.t) : number :=
  convertToVND rates (Expense.amount e) (Expense.currency e).

(** Sum of the converted amounts of a list of expenses. *)
Definition convertedSum (rates : ExchangeRates.t) (expenses : list Expense.t)
    : number :=
  sum (map (converted rates) expenses).

(** One round of the [forEach], seen from the accumulator of the expense's
    own category. *)
Definition accumulate (rates : ExchangeRates.t) (s : CategorySum.t)
    (e : Expense.t) : CategorySum.t :=
  let s1 :=
    CategorySum.set s (Expense.currency e)
      (add (CategorySum.get s (Expense.currency e)) (Expense.amount e)) in
  CategorySum.set s1 Currency.VND
    (add (CategorySum.VND s1) (converted rates e)).

(** The accumulator [sums[k]], or the fresh one the loop would create. *)
Definition accumulator (k : Category) (sums : Sums) : CategorySum.t :=
  match lookup k sums with
  | Some s => s
  | None => CategorySum.empty
  end.

(** The raw amount of an expense entered in VND, and 0 for any other. *)
Definition nativeVND (e : Expense.t) : number :=
  match Expense.currency e with
  | Currency.VND => Expense.amount e
  | _ => zero
  end.

(** Sum of the unrounded conversions of a list of expenses. *)
Definition unroundedSum (rates : ExchangeRates.t) (expenses : list Expense.t)
    : number :=
  sum (map (fun e => unroundedVND rates (Expense.amount e)
                       (Expense.currency e)) expenses).

(** The rate table a run of events leaves behind, read off the events alone:
    the table of the last refresh that delivered rates, and [table] when
    there was none. *)
Fixpoint lastFetched (events : list Event) (table : ExchangeRates.t)
    : ExchangeRates.t :=
  match events with
  | [] => table
  | FetchSettle (Json (Some (usd, vnd))) :: rest =>
      lastFetched rest (ExchangeRates.make (Num 1) usd vnd)
  | _ :: rest => lastFetched rest table
  end.

(** A strictly positive number. *)
Definition isPositive (x : number) : bool :=
  match x with
  | Num q => if Qlt_le_dec 0 q then true else false
  | Inf negative => negb negative
  | NaN => false
  end.

(** *** What the page shows

    The values [Home] computes for its markup. The amounts are kept as
    numbers: the formatting by [toFixed] and [toLocaleString] is left out. *)

(** The block of one category: its heading, the listed expenses, each with
    the converted amount shown under it, and the two amounts of its
    "Category Total". *)
Record CategorySection : Type := mkSection {
  heading : Category;
  items : list (Expense.t * number);
  categoryTotalEUR : number;
  categoryTotalVND : number
}.

(** A computation that returns, or throws the [TypeError] of reading a
    property of [undefined]. *)
Inductive Rendered (A : Type) : Type :=
| Returned (a : A)
| Throws.

Arguments Returned {A} a.
Arguments Throws {A}.

(** The callback of [categories.map]: [null] for a category without
    expenses; otherwise [categorySums[cat]] is read and its fields used. *)
Definition renderCategory (st : Home) (cat : Category)
    : Rendered (option CategorySection) :=
  let categoryExpenses :=
    filter (fun expense => Category_eqb (Expense.category expense) cat)
           (expenses st) in
  if Nat.eqb (List.length categoryExpenses) 0 then Returned None
  else
    match lookup cat (renderCategorySums st) with
    | None => Throws
    | Some categorySum =>
        Returned
          (Some
             (mkSection cat
                (map (fun expense =>
                        (expense,
                         convertToVND (exchangeRates st)
                           (Expense.amount expense)
                           (Expense.currency expense)))
                     categoryExpenses)
                (CategorySum.EUR categorySum)
                (CategorySum.VND categorySum)))
    end.

Fixpoint renderCategories (st : Home) (cats : list Category)
    : Rendered (list (option CategorySection)) :=
  match cats with
  | [] => Returned []
  | cat :: rest =>
      match renderCategory st cat with
      | Throws => Throws
      | Returned block =>
          match renderCategories st rest with
          | Throws => Throws
          | Returned blocks => Returned (block :: blocks)
          end
      end
  end.

(** The page: the submit button ([disabled] and its label), the blocks of
    the categories and the two amounts of "Total Expenses". *)
Record Page : Type := mkPage {
  submitDisabled : bool;
  submitLabel : string;
  sections : list (option CategorySection);
  totalEUR : number;
  totalVND : number
}.

Definition render (st : Home) : Rendered Page :=
  match renderCategories st categories with
  | Throws => Throws
  | Returned blocks =>
      Returned
        (mkPage (isLoading st)
                (if isLoading st then "Loading..." else "Add Expense")
                blocks
                (CategorySum.EUR (renderTotalSum st))
                (CategorySum.VND (renderTotalSum st)))
  end.

(** The expenses a page lists, from top to bottom. *)
Definition listed (blocks : list (option CategorySection)) : list Expense.t :=
  flat_map (fun block =>
              match block with
              | Some section => map fst (items section)
              | None => []
              end) blocks.

(** *** Quantities used to state the further properties *)

(** The expenses entered in currency [c]. *)
Definition enteredIn (c : Currency.t) (expenses : list Expense.t)
    : list Expense.t :=
  filter (fun e => Currency.eqb (Expense.currency e) c) expenses.

(** The distinct entries of a list of categories, in the order of their
    first occurrence. *)
Definition firstSeen (ks : list Category) : list Category :=
  fold_left (fun seen k =>
               if existsb (Category_eqb k) seen then seen else seen ++ [k])
            ks [].

(** The clock readings of the submissions of a run. *)
Fixpoint submitTimes (events : list Event) : list Z :=
  match events with
  | [] => []
  | Submit now :: rest => now :: submitTimes rest
  | _ :: rest => submitTimes rest
  end.

(** The loading flag a run of events leaves behind, read off the events
    alone: raised by the start of a refresh, lowered when one settles. *)
Fixpoint loadingAfter (events : list Event) (flag : bool) : bool :=
  match events with
  | [] => flag
  | FetchStart :: rest => loadingAfter rest true
  | FetchSettle _ :: rest => loadingAfter rest false
  | _ :: rest => loadingAfter rest flag
  end.

(** The events of the form, without those of the rate refresh. *)
Definition isFormEvent (ev : Event) : bool :=
  match ev with
  | FetchStart | FetchSettle _ => false
  | _ => true
  end.

Definition isSuccess (t : Toast) : bool :=
  match t with
  | ToastSuccess _ => true
  | ToastError _ => false
  end.

(** Two states with the same expenses and the same form. *)
Definition sameForm (a b : Home) : Prop :=
  expenses a = expenses b /\ amount a = amount b /\
  currency a = currency b /\ category a = category b /\
  description a = description b.

(* ================================================================== *)
(** ** [parseFloat] on sample strings *)

Example parseFloat_decimal : parseFloat "12.50" = Num (25 # 2).
Proof. reflexivity. Qed.

Example parseFloat_prefix : parseFloat "  -3e2 euros" = Num (- 300).
Proof. reflexivity. Qed.

Example parseFloat_fraction_only : parseFloat ".5" = Num (1 # 2).
Proof. reflexivity. Qed.

Example parseFloat_no_digits : parseFloat "abc" = NaN.
Proof. reflexivity. Qed.

Example parseFloat_empty : parseFloat "" = NaN.
Proof. reflexivity. Qed.

Example parseFloat_Infinity : parseFloat "Infinity" = Inf false.
Proof. reflexivity. Qed.

(* ================================================================== *)
(** ** Conversion *)

Lemma convertToVND_unrounded rates a c :
  convertToVND rates a c = round (unroundedVND rates a c).
Proof. destruct c; reflexivity. Qed.



(* ================================================================== *)
(** ** The submit handler *)

Lemma truthy_false (s : string) : truthy s = false -> s = EmptyString.
Proof. destruct s; [reflexivity | discriminate]. Qed.

(** The test of [handleSubmit]: an empty string parses to NaN, so the test
    is that of [isNaN] alone. *)
Lemma handleSubmit_guard (s : string) :
  negb (truthy s) || isNaN (parseFloat s) = isNaN (parseFloat s).
Proof. destruct s; reflexivity. Qed.

Lemma handleSubmit_rejects now st :
  isNaN (parseFloat (amount st)) = true ->
  handleSubmit now st = toast (ToastError "Please enter a valid amount") st.
Proof.
  intros H. unfold handleSubmit. rewrite handleSubmit_guard, H. reflexivity.
Qed.

Lemma handleSubmit_accepts now st :
  isNaN (parseFloat (amount st)) = false ->
  handleSubmit now st =
    mkHome (expenses st ++ [newExpense now st]) "" (currency st)
           (category st) "" (exchangeRates st) (isLoading st)
           (toasts st ++ [ToastSuccess "Expense added successfully!"]).
Proof.
  intros H. unfold handleSubmit. rewrite handleSubmit_guard, H. reflexivity.
Qed.

(** On any amount string whatever, a submission appends the expense exactly
    when [parseFloat] of the string is not NaN. When it is NaN, which
    includes the empty and the non-numeric string, the submission raises the
    error notification and changes nothing else. *)
Lemma handleSubmit_appends_unless_NaN (now : Z) (st : Home) :
  if isNaN (parseFloat (amount st))
  then handleSubmit now st = toast (ToastError "Please enter a valid amount") st
       /\ expenses (handleSubmit now st) = expenses st
       /\ toasts (handleSubmit now st) =
            toasts st ++ [ToastError "Please enter a valid amount"]
  else expenses (handleSubmit now st) = expenses st ++ [newExpense now st]
       /\ isNaN (Expense.amount (newExpense now st)) = false
       /\ toasts (handleSubmit now st) =
            toasts st ++ [ToastSuccess "Expense added successfully!"].
Proof.
  destruct (isNaN (parseFloat (amount st))) eqn:H.
  - rewrite (handleSubmit_rejects now st H). repeat split.
  - rewrite (handleSubmit_accepts now st H). repeat split. exact H.
Qed.

(** The test lets the infinities through: a string that spells [Infinity]
    is accepted. The amount field never holds such a string. *)
Example handleSubmit_accepts_Infinity :
  isFinite (parseFloat (amount (setAmount "Infinity" initial))) = false /\
  numberInputValue "Infinity" = false /\
  expenses (handleSubmit 7 (setAmount "Infinity" initial)) =
    expenses (setAmount "Infinity" initial) ++
    [Expense.make 7 (Inf false) Currency.EUR Restaurant ""].
Proof. repeat split. Qed.


Lemma step_amount_input (st : Home) (ev : Event) :
  match ev with
  | ChangeAmount v => numberInputValue v = true
  | _ => True
  end ->
  numberInputValue (amount st) = true ->
  numberInputValue (amount (step st ev)) = true.
Proof.
  intros Hev H. destruct ev as [v|v|v|v|now| |r]; simpl; try exact H.
  - exact Hev.
  - unfold handleSubmit.
    destruct (negb (truthy (amount st)) || isNaN (parseFloat (amount st)));
      [exact H | reflexivity].
  - destruct r as [| |[[usd vnd]|]]; exact H.
Qed.

(** The amount in the state is always a value of the amount field: it is
    written by the field's [onChange] and emptied by an accepted
    submission, and by nothing else. *)
Lemma run_amount_input (events : list Event) : forall st,
  Forall (fun ev => match ev with
                    | ChangeAmount v => numberInputValue v = true
                    | _ => True
                    end) events ->
  numberInputValue (amount st) = true ->
  numberInputValue (amount (run events st)) = true.
Proof.
  induction events as [|ev events IH]; intros st Hevs H; [exact H|].
  inversion Hevs as [|x l Hev Hrest]; subst. simpl.
  apply (IH _ Hrest), (step_amount_input st ev Hev H).
Qed.



(** The empty field: the submission is rejected. *)
Example handleSubmit_empty_field :
  numberInputValue (amount initial) = true /\
  handleSubmit 3 initial =
    toast (ToastError "Please enter a valid amount") initial.
Proof. split; reflexivity. Qed.

(** The store after a run of events holds no NaN amount. *)
Lemma step_amounts_not_NaN st ev :
  Forall (fun e => isNaN (Expense.amount e) = false) (expenses st) ->
  Forall (fun e => isNaN (Expense.amount e) = false) (expenses (step st ev)).
Proof.
  intros H. destruct ev; simpl; try exact H.
  - destruct (isNaN (parseFloat (amount st))) eqn:Hnan.
    + rewrite (handleSubmit_rejects now st Hnan). exact H.
    + rewrite (handleSubmit_accepts now st Hnan). simpl.
      apply Forall_app. split; [exact H|].
      constructor; [exact Hnan | constructor].
  - destruct r as [| |[[usd vnd]|]]; exact H.
Qed.

Lemma run_amounts_not_NaN events : forall st,
  Forall (fun e => isNaN (Expense.amount e) = false) (expenses st) ->
  Forall (fun e => isNaN (Expense.amount e) = false)
         (expenses (run events st)).
Proof.
  induction events as [|ev events IH]; intros st H; simpl.
  - exact H.
  - apply IH, step_amounts_not_NaN, H.
Qed.

(** C6, as the code has it. No test on the sign of the amount exists: what
    every stored expense satisfies, after any run of events from the first
    render, is that its amount is not NaN. *)
Theorem stored_amounts_not_NaN (events : list Event) :
  Forall (fun e => isNaN (Expense.amount e) = false)
         (expenses (run events initial)).
Proof. apply run_amounts_not_NaN. constructor. Qed.

(** C6, as stated, fails: a negative amount and a zero amount are stored. *)
Lemma negative_amount_stored :
  expenses (run [ChangeAmount "-5"; Submit 1; ChangeAmount "0"; Submit 2]
                initial) =
    [Expense.make 1 (Num (- 5)) Currency.EUR Restaurant "";
     Expense.make 2 (Num 0) Currency.EUR Restaurant ""] /\
  ~ Forall (fun e => isPositive (Expense.amount e) = true)
      (expenses (run [ChangeAmount "-5"; Submit 1; ChangeAmount "0"; Submit 2]
                     initial)).
Proof.
  split; [reflexivity|].
  intros H. inversion H as [|e l Hneg _]. discriminate Hneg.
Qed.

(** Every event leaves the stored expenses in place and at most adds one
    at the end. *)
Lemma step_append_only st ev :
  exists suffix, expenses (step st ev) = expenses st ++ suffix.
Proof.
  destruct ev; simpl; try (exists []; rewrite app_nil_r; reflexivity).
  - destruct (isNaN (parseFloat (amount st))) eqn:Hnan.
    + rewrite (handleSubmit_rejects now st Hnan).
      exists []. simpl. rewrite app_nil_r. reflexivity.
    + rewrite (handleSubmit_accepts now st Hnan).
      exists [newExpense now st]. reflexivity.
  - destruct r as [| |[[usd vnd]|]]; exists []; simpl;
      rewrite app_nil_r; reflexivity.
Qed.

Lemma run_append_only events : forall st,
  exists suffix, expenses (run events st) = expenses st ++ suffix.
Proof.
  induction events as [|ev events IH]; intros st; simpl.
  - exists []. rewrite app_nil_r. reflexivity.
  - destruct (IH (step st ev)) as [l2 H2].
    destruct (step_append_only st ev) as [l1 H1].
    exists (l1 ++ l2). rewrite H2, H1, app_assoc. reflexivity.
Qed.

(** C7. A valid submission (one whose amount passes the test of
    [handleSubmit]) turns the sequence into the old sequence followed by the
    one new expense, so every stored expense keeps its position and its
    contents; and no event of the component removes or changes a stored
    expense: whatever happens next, the old sequence stays a prefix. *)
Theorem handleSubmit_appends_at_end (now : Z) (st : Home)
    (Hvalid : negb (truthy (amount st)) || isNaN (parseFloat (amount st))
              = false) :
  expenses (handleSubmit now st) = expenses st ++ [newExpense now st] /\
  (forall i e, nth_error (expenses st) i = Some e ->
               nth_error (expenses (handleSubmit now st)) i = Some e) /\
  (forall events i e,
      nth_error (expenses st) i = Some e ->
      nth_error (expenses (run events st)) i = Some e).
Proof.
  rewrite handleSubmit_guard in Hvalid.
  rewrite (handleSubmit_accepts now st Hvalid). simpl.
  split; [reflexivity|]. split.
  - intros i e H. rewrite nth_error_app1; [exact H|].
    apply nth_error_Some. congruence.
  - intros events i e H. destruct (run_append_only events st) as [l Hl].
    rewrite Hl, nth_error_app1; [exact H|].
    apply nth_error_Some. congruence.
Qed.

Lemma handleSubmit_appends_at_end_witness :
  negb (truthy (amount (setAmount "12.50" initial)))
  || isNaN (parseFloat (amount (setAmount "12.50" initial))) = false /\
  expenses (handleSubmit 3 (setAmount "12.50" initial)) =
    expenses (setAmount "12.50" initial) ++
    [newExpense 3 (setAmount "12.50" initial)].
Proof.
  split; [reflexivity|].
  apply (handleSubmit_appends_at_end 3 (setAmount "12.50" initial)).
  reflexivity.
Defined.

(* ================================================================== *)
(** ** The rate refresh *)

Lemma run_lastFetched events : forall st,
  exchangeRates (run events st) = lastFetched events (exchangeRates st).
Proof.
  induction events as [|ev events IH]; intros st; simpl; [reflexivity|].
  rewrite IH. destruct ev; simpl; try reflexivity.
  - unfold handleSubmit.
    destruct (negb (truthy (amount st)) || isNaN (parseFloat (amount st)));
      reflexivity.
  - destruct r as [| |[[usd vnd]|]]; reflexivity.
Qed.

(** C8. A refresh that fails (the request fails, the body does not parse,
    or the body carries no rates) leaves the rate table as it was, raises
    the notification and touches no expense, so every conversion and the
    aggregates are as before. The table of a run of events is the one of
    the last refresh that delivered rates; before any such refresh it is the
    default [{ EUR: 1, USD: 1, VND: 1 }]. *)
Theorem fetch_failure_keeps_rates :
  (forall (r : FetchResult) (st : Home),
      match r with
      | Json (Some _) => True
      | _ =>
          exchangeRates (fetchExchangeRates r st) = exchangeRates st /\
          expenses (fetchExchangeRates r st) = expenses st /\
          toasts (fetchExchangeRates r st) =
            toasts st ++
            [ToastError "Failed to fetch exchange rates. Using default values."] /\
          (forall a c,
              convertToVND (exchangeRates (fetchExchangeRates r st)) a c =
              convertToVND (exchangeRates st) a c) /\
          renderCategorySums (fetchExchangeRates r st) = renderCategorySums st /\
          renderTotalSum (fetchExchangeRates r st) = renderTotalSum st
      end) /\
  exchangeRates initial = ExchangeRates.make (Num 1) (Num 1) (Num 1) /\
  (forall events : list Event,
      exchangeRates (run events initial) =
      lastFetched events (ExchangeRates.make (Num 1) (Num 1) (Num 1))).
Proof.
  split; [|split].
  - intros r st. destruct r as [| |[[usd vnd]|]]; try exact I;
      repeat split.
  - reflexivity.
  - intros events. apply (run_lastFetched events initial).
Qed.

(** A failure after a success: the table is that of the success. *)
Example failure_after_success :
  exchangeRates
    (run [FetchStart; FetchSettle (Json (Some (Num (11 # 10), Num 25000)));
          FetchStart; FetchSettle NetworkError;
          FetchStart; FetchSettle ParseError] initial) =
  ExchangeRates.make (Num 1) (Num (11 # 10)) (Num 25000).
Proof. reflexivity. Qed.

(* ================================================================== *)
(** ** Arithmetic of numbers *)

#[export] Instance num_eq_Equivalence : Equivalence num_eq.
Proof.
  split.
  - intros [q|s|]; simpl; [reflexivity | reflexivity | exact I].
  - intros [q|s|] [r|t|]; simpl; try tauto.
    + intros H. symmetry. exact H.
    + intros H. symmetry. exact H.
  - intros [q|s|] [r|t|] [u|v|]; simpl; try tauto.
    + intros H1 H2. rewrite H1. exact H2.
    + intros H1 H2. congruence.
Qed.

#[export] Instance add_Proper : Proper (num_eq ==> num_eq ==> num_eq) add.
Proof.
  intros [q|s|] [r|t|] H1 [u|v|] [w|x|] H2; simpl in *; try tauto;
    subst; try reflexivity.
  all: try (rewrite H1, H2; reflexivity).
  all: destruct (Bool.eqb t x); simpl; [reflexivity | exact I].
Qed.

Lemma add_comm (x y : number) : num_eq (add x y) (add y x).
Proof.
  destruct x as [q|s|], y as [r|t|]; simpl; try reflexivity; try exact I.
  - apply Qplus_comm.
  - destruct s, t; simpl; try reflexivity; exact I.
Qed.

Lemma add_assoc (x y z : number) :
  num_eq (add (add x y) z) (add x (add y z)).
Proof.
  destruct x as [q|s|], y as [r|t|], z as [u|v|]; simpl;
    try reflexivity; try exact I;
    try (symmetry; apply Qplus_assoc);
    repeat match goal with b : bool |- _ => destruct b end;
    simpl; try reflexivity; exact I.
Qed.

Lemma add_zero_r (x : number) : num_eq (add x zero) x.
Proof. destruct x as [q|s|]; simpl; [apply Qplus_0_r | reflexivity | exact I]. Qed.

Lemma add_zero_l (x : number) : num_eq (add zero x) x.
Proof. destruct x as [q|s|]; simpl; [apply Qplus_0_l | reflexivity | exact I]. Qed.

(** A left-to-right sum from [a] is [a] plus the sum from 0. *)
Lemma fold_add_from (l : list number) : forall a,
  num_eq (fold_left add l a) (add a (sum l)).
Proof.
  unfold sum.
  induction l as [|x l IH]; intros a; simpl.
  - symmetry. apply add_zero_r.
  - rewrite (IH (add a x)), (IH (add zero x)).
    rewrite add_assoc. rewrite (add_zero_l x). reflexivity.
Qed.

Lemma sum_cons (x : number) (l : list number) :
  num_eq (sum (x :: l)) (add x (sum l)).
Proof.
  unfold sum at 1. simpl. rewrite fold_add_from.
  rewrite (add_zero_l x). reflexivity.
Qed.

Lemma sum_app (l1 l2 : list number) :
  num_eq (sum (l1 ++ l2)) (add (sum l1) (sum l2)).
Proof.
  unfold sum at 1 2. rewrite fold_left_app. apply fold_add_from.
Qed.

(* ================================================================== *)
(** ** The object of category sums *)

Lemma categories_complete (k : Category) : In k categories.
Proof. destruct k; simpl; tauto. Qed.

Lemma categoryName_injective (a b : Category) :
  categoryName a = categoryName b -> a = b.
Proof. destruct a, b; simpl; intros H; try reflexivity; discriminate H. Qed.

Lemma initial_category : nth_error categories 0 = Some (category initial).
Proof. reflexivity. Qed.

Lemma Category_eqb_refl (k : Category) : Category_eqb k k = true.
Proof. destruct k; reflexivity. Qed.

Lemma Category_eqb_eq (a b : Category) : Category_eqb a b = true <-> a = b.
Proof. destruct a, b; simpl; split; congruence. Qed.

Lemma Category_eqb_sym (a b : Category) : Category_eqb a b = Category_eqb b a.
Proof. destruct a, b; reflexivity. Qed.

Lemma lookup_app (k k' : Category) (v : CategorySum.t) (sums : Sums) :
  lookup k (sums ++ [(k', v)]) =
    match lookup k sums with
    | Some s => Some s
    | None => if Category_eqb k k' then Some v else None
    end.
Proof.
  induction sums as [|[k0 v0] sums IH]; simpl; [reflexivity|].
  destruct (Category_eqb k k0); [reflexivity | exact IH].
Qed.

Lemma lookup_modify_same (k : Category) f (sums : Sums) :
  lookup k (modify k f sums) = option_map f (lookup k sums).
Proof.
  induction sums as [|[k0 v0] sums IH]; simpl; [reflexivity|].
  destruct (Category_eqb k k0) eqn:E; simpl; rewrite E; [reflexivity | exact IH].
Qed.

Lemma lookup_modify_other (k k' : Category) f (sums : Sums) :
  Category_eqb k k' = false ->
  lookup k (modify k' f sums) = lookup k sums.
Proof.
  intros Hne. induction sums as [|[k0 v0] sums IH]; simpl; [reflexivity|].
  destruct (Category_eqb k' k0) eqn:E; simpl.
  - apply Category_eqb_eq in E. subst k0. rewrite Hne. reflexivity.
  - rewrite IH. reflexivity.
Qed.

(** After a round, the accumulator of the expense's category is the old one
    (or a fresh one) with the expense accumulated. *)
Lemma addExpense_lookup_same rates (sums : Sums) (e : Expense.t) :
  lookup (Expense.category e) (addExpense rates sums e) =
    Some (accumulate rates (accumulator (Expense.category e) sums) e).
Proof.
  unfold addExpense, accumulator, accumulate, converted.
  rewrite !lookup_modify_same.
  destruct (lookup (Expense.category e) sums) as [s|] eqn:E.
  - rewrite E. reflexivity.
  - rewrite lookup_app, E, Category_eqb_refl. reflexivity.
Qed.

(** A round leaves the accumulators of the other categories alone. *)
Lemma addExpense_lookup_other rates (sums : Sums) (e : Expense.t)
    (k : Category) :
  Category_eqb k (Expense.category e) = false ->
  lookup k (addExpense rates sums e) = lookup k sums.
Proof.
  intros Hne. unfold addExpense.
  rewrite !(lookup_modify_other _ _ _ _ Hne).
  destruct (lookup (Expense.category e) sums); [reflexivity|].
  rewrite lookup_app, Hne. destruct (lookup k sums); reflexivity.
Qed.

(** The accumulator of a category after the loop: the expenses of that
    category accumulated in sequence order; absent when there are none. *)
Lemma fold_addExpense_lookup rates (k : Category) (l : list Expense.t) :
  forall sums,
    lookup k (fold_left (addExpense rates) l sums) =
      match inCategory k l with
      | [] => lookup k sums
      | _ :: _ =>
          Some (fold_left (accumulate rates) (inCategory k l)
                          (accumulator k sums))
      end.
Proof.
  induction l as [|e l IH]; intros sums; simpl; [reflexivity|].
  rewrite IH. destruct (Category_eqb (Expense.category e) k) eqn:E.
  - apply Category_eqb_eq in E. subst k. simpl.
    unfold accumulator at 1.
    rewrite addExpense_lookup_same.
    destruct (inCategory (Expense.category e) l); reflexivity.
  - rewrite Category_eqb_sym in E.
    unfold accumulator. rewrite (addExpense_lookup_other _ _ _ _ E).
    reflexivity.
Qed.

Lemma categorySums_lookup (l : list Expense.t) rates (k : Category) :
  lookup k (categorySums l rates) =
    match inCategory k l with
    | [] => None
    | _ :: _ =>
        Some (fold_left (accumulate rates) (inCategory k l) CategorySum.empty)
    end.
Proof. unfold categorySums. rewrite fold_addExpense_lookup. reflexivity. Qed.

(** The VND field of an accumulator after a run of rounds: every round adds
    the converted amount, and a round for an expense entered in VND first
    adds the raw amount. *)
Lemma accumulate_VND rates (l : list Expense.t) : forall s,
  CategorySum.VND (fold_left (accumulate rates) l s) =
    fold_left
      (fun acc e =>
         add (match Expense.currency e with
              | Currency.VND => add acc (Expense.amount e)
              | _ => acc
              end) (converted rates e))
      l (CategorySum.VND s).
Proof.
  induction l as [|e l IH]; intros s; simpl; [reflexivity|].
  rewrite IH. f_equal. unfold accumulate.
  destruct (Expense.currency e); reflexivity.
Qed.

(** Where no expense of the list is entered in VND, the VND field is the
    sum of the converted amounts. *)
Lemma accumulate_VND_free rates (l : list Expense.t) :
  forallb (fun e => negb (Currency.eqb (Expense.currency e) Currency.VND)) l
    = true ->
  CategorySum.VND (fold_left (accumulate rates) l CategorySum.empty) =
    convertedSum rates l.
Proof.
  rewrite accumulate_VND. unfold convertedSum, sum. simpl.
  generalize zero. induction l as [|e l IH]; intros a H; simpl; [reflexivity|].
  simpl in H. apply andb_true_iff in H. destruct H as [He Hl].
  rewrite <- (IH _ Hl). f_equal.
  destruct (Expense.currency e); [reflexivity | reflexivity | discriminate].
Qed.

(** C3. A [CategorySum] has the three numeric fields EUR, USD and VND and
    no other, and the subtotal of the amounts entered in VND is kept in the
    same VND field as the converted total. So a round of the loop for an
    expense entered in VND adds to the VND field of its category first the
    raw amount and then the rounded conversion, both of them and in this
    order, and leaves the EUR and USD fields and every other category as
    they were. *)
Theorem VND_expense_adds_amount_and_conversion
    (rates : ExchangeRates.t) (sums : Sums)
    (id : Z) (a : number) (cat : Category) (desc : string) :
  let e := Expense.make id a Currency.VND cat desc in
  let old := accumulator cat sums in
  let new := accumulator cat (addExpense rates sums e) in
  (forall s : CategorySum.t,
      s = CategorySum.make (CategorySum.EUR s) (CategorySum.USD s)
                           (CategorySum.VND s) /\
      CategorySum.get s Currency.VND = CategorySum.VND s) /\
  (forall k,
      lookup k (addExpense rates sums e) =
      if Category_eqb k cat then Some new else lookup k sums) /\
  CategorySum.EUR new = CategorySum.EUR old /\
  CategorySum.USD new = CategorySum.USD old /\
  CategorySum.VND new =
    add (add (CategorySum.VND old) a)
        (round (unroundedVND rates a Currency.VND)).
Proof.
  intros e old new.
  pose proof (addExpense_lookup_same rates sums e) as Hsame.
  change (Expense.category e) with cat in Hsame.
  assert (Hnew : new = accumulate rates old e).
  { unfold new, accumulator at 1. rewrite Hsame. reflexivity. }
  split; [|split].
  - intros [x y z]. split; reflexivity.
  - intros k. destruct (Category_eqb k cat) eqn:E.
    + apply Category_eqb_eq in E. subst k.
      rewrite Hsame, Hnew. reflexivity.
    + apply (addExpense_lookup_other rates sums e k E).
  - rewrite Hnew. repeat split.
Qed.

(** C1 at the input where the code departs from it. After a refresh that
    delivers the rates USD 2 and VND 25000, one expense of 1000 entered in
    VND is submitted in the category Other. The sum of the converted amounts
    of that category is 1000, and the VND field of its accumulator is
    2000: the raw amount and the conversion were both added to it. *)
Theorem category_VND_field_counts_VND_expense_twice :
  expenses
    (run [FetchStart; FetchSettle (Json (Some (Num 2, Num 25000)));
          ChangeAmount "1000"; ChangeCurrency Currency.VND;
          ChangeCategory Other; ChangeDescription "rent"; Submit 1]
         initial) =
    [Expense.make 1 (Num 1000) Currency.VND Other "rent"] /\
  renderCategorySums
    (run [FetchStart; FetchSettle (Json (Some (Num 2, Num 25000)));
          ChangeAmount "1000"; ChangeCurrency Currency.VND;
          ChangeCategory Other; ChangeDescription "rent"; Submit 1]
         initial) =
    [(Other, CategorySum.make (Num 0) (Num 0) (Num 2000))] /\
  convertedSum (ExchangeRates.make (Num 1) (Num 2) (Num 25000))
    (inCategory Other
       [Expense.make 1 (Num 1000) Currency.VND Other "rent"]) = Num 1000 /\
  ~ num_eq (Num 2000) (Num 1000).
Proof.
  split; [reflexivity|]. split; [reflexivity|]. split; [reflexivity|].
  simpl. intros H. discriminate H.
Qed.

(** What C1 says holds for every category without an expense entered in
    VND. *)
Lemma categorySums_VND_free (l : list Expense.t) rates (k : Category) :
  forallb (fun e => negb (Currency.eqb (Expense.currency e) Currency.VND))
          (inCategory k l) = true ->
  CategorySum.VND (accumulator k (categorySums l rates)) =
    convertedSum rates (inCategory k l).
Proof.
  intros H. unfold accumulator. rewrite categorySums_lookup.
  destruct (inCategory k l) as [|e l'] eqn:E; [reflexivity|].
  apply (accumulate_VND_free rates (e :: l') H).
Qed.

(* ================================================================== *)
(** ** The grand total *)

Lemma totalSum_fold (l : list CategorySum.t) : forall total,
  let result :=
    fold_left
      (fun total categorySum =>
         CategorySum.make
           (add (CategorySum.EUR total) (CategorySum.EUR categorySum))
           (add (CategorySum.USD total) (CategorySum.USD categorySum))
           (add (CategorySum.VND total) (CategorySum.VND categorySum)))
      l total in
  CategorySum.EUR result =
    fold_left add (map CategorySum.EUR l) (CategorySum.EUR total) /\
  CategorySum.USD result =
    fold_left add (map CategorySum.USD l) (CategorySum.USD total) /\
  CategorySum.VND result =
    fold_left add (map CategorySum.VND l) (CategorySum.VND total).
Proof.
  induction l as [|s l IH]; intros total; simpl.
  - repeat split.
  - apply IH.
Qed.

Lemma modify_keys (k : Category) f (sums : Sums) :
  map fst (modify k f sums) = map fst sums.
Proof.
  induction sums as [|[k0 v0] sums IH]; simpl; [reflexivity|].
  destruct (Category_eqb k k0); simpl; [reflexivity | rewrite IH; reflexivity].
Qed.

Lemma lookup_None_not_key (k : Category) (sums : Sums) :
  lookup k sums = None -> ~ In k (map fst sums).
Proof.
  induction sums as [|[k0 v0] sums IH]; simpl; [tauto|].
  destruct (Category_eqb k k0) eqn:E; [discriminate|].
  intros H [H0|H0].
  - subst k0. rewrite Category_eqb_refl in E. discriminate.
  - exact (IH H H0).
Qed.

Lemma lookup_In (k : Category) (s : CategorySum.t) (sums : Sums) :
  NoDup (map fst sums) ->
  (In (k, s) sums <-> lookup k sums = Some s).
Proof.
  induction sums as [|[k0 v0] sums IH]; simpl; intros Hnd.
  - split; [tauto | discriminate].
  - inversion Hnd as [|x l Hnotin Hnd' Heq]; subst.
    destruct (Category_eqb k k0) eqn:E.
    + apply Category_eqb_eq in E. subst k0. split.
      * intros [H|H]; [congruence|].
        exfalso. apply Hnotin. apply (in_map fst _ _ H).
      * intros H. left. congruence.
    + split.
      * intros [H|H]; [|apply (IH Hnd'), H].
        inversion H; subst. rewrite Category_eqb_refl in E. discriminate.
      * intros H. right. apply (IH Hnd'), H.
Qed.

(** The object has one property per category. *)
Lemma addExpense_keys_NoDup rates (sums : Sums) (e : Expense.t) :
  NoDup (map fst sums) -> NoDup (map fst (addExpense rates sums e)).
Proof.
  intros H. unfold addExpense. rewrite !modify_keys.
  destruct (lookup (Expense.category e) sums) eqn:E; [exact H|].
  rewrite map_app. simpl.
  apply NoDup_app; [exact H | repeat constructor; simpl; tauto |].
  intros x Hx [Hk|[]]. subst x.
  exact (lookup_None_not_key _ _ E Hx).
Qed.

Lemma categorySums_keys_NoDup (l : list Expense.t) rates :
  NoDup (map fst (categorySums l rates)).
Proof.
  unfold categorySums.
  assert (H : NoDup (map fst (@nil (Category * CategorySum.t)))) by constructor.
  revert H. generalize (@nil (Category * CategorySum.t)).
  induction l as [|e l IH]; intros sums H; simpl; [exact H|].
  apply IH, addExpense_keys_NoDup, H.
Qed.

(** C4. The grand total is the field-wise sum of the category accumulators,
    of which the object holds one per category: each of its EUR, USD and VND
    fields is the sum of that field over the accumulators, in the order
    [Object.values] lists them. *)
Theorem totalSum_is_fieldwise_sum (l : list Expense.t)
    (rates : ExchangeRates.t) :
  NoDup (map fst (categorySums l rates)) /\
  CategorySum.EUR (totalSum (categorySums l rates)) =
    sum (map CategorySum.EUR (values (categorySums l rates))) /\
  CategorySum.USD (totalSum (categorySums l rates)) =
    sum (map CategorySum.USD (values (categorySums l rates))) /\
  CategorySum.VND (totalSum (categorySums l rates)) =
    sum (map CategorySum.VND (values (categorySums l rates))).
Proof.
  split; [apply categorySums_keys_NoDup|].
  apply (totalSum_fold (values (categorySums l rates)) CategorySum.empty).
Qed.

(** C9. The scenario of the specification: 10 in the base currency EUR and
    5 in USD, with the rates EUR 1, USD 2, VND 25000, in any two categories.
    The first converts to round (10 * 25000) = 250000, the second through
    (5 / 2) * 25000 = 62500; the subtotals 10 and 5 stay in the EUR and the
    USD field, and the VND field of the grand total is 312500. *)
Theorem scenario_EUR_and_USD (id1 id2 : Z) (c1 c2 : Category)
    (d1 d2 : string) :
  let rates := ExchangeRates.make (Num 1) (Num 2) (Num 25000) in
  let expenses :=
    [Expense.make id1 (Num 10) Currency.EUR c1 d1;
     Expense.make id2 (Num 5) Currency.USD c2 d2] in
  convertToVND rates (Num 10) Currency.EUR = Num 250000 /\
  round (mul (Num 10) (Num 25000)) = Num 250000 /\
  convertToVND rates (Num 5) Currency.USD = Num 62500 /\
  num_eq (mul (div (Num 5) (Num 2)) (Num 25000)) (Num 62500) /\
  categorySums expenses rates =
    (if Category_eqb c2 c1
     then [(c1, CategorySum.make (Num 10) (Num 5) (Num 312500))]
     else [(c1, CategorySum.make (Num 10) (Num 0) (Num 250000));
           (c2, CategorySum.make (Num 0) (Num 5) (Num 62500))]) /\
  totalSum (categorySums expenses rates) =
    CategorySum.make (Num 10) (Num 5) (Num 312500).
Proof.
  intros rates expenses.
  split; [reflexivity|]. split; [reflexivity|]. split; [reflexivity|].
  split; [reflexivity|].
  split; destruct c1, c2; reflexivity.
Qed.

(** *** The grand total over the expenses

    Up to numeric equality the sums can be regrouped, and the VND field of
    the grand total is a sum over the expenses themselves. *)

Lemma sum_pointwise {A : Type} (f g : A -> number) (l : list A) :
  (forall x, num_eq (f x) (g x)) ->
  num_eq (sum (map f l)) (sum (map g l)).
Proof.
  intros H. induction l as [|x l IH]; simpl; [reflexivity|].
  rewrite !sum_cons, IH, (H x). reflexivity.
Qed.

Lemma modify_modify (k : Category) f g (sums : Sums) :
  modify k g (modify k f sums) = modify k (fun s => g (f s)) sums.
Proof.
  induction sums as [|[k0 v0] sums IH]; simpl; [reflexivity|].
  destruct (Category_eqb k k0) eqn:E; simpl; rewrite E;
    [reflexivity | rewrite IH; reflexivity].
Qed.

(** Adding [d] to a field of one accumulator adds [d] to the sum of that
    field over the object. *)
Lemma sum_modify (field : CategorySum.t -> number) (k : Category) f
    (d : number) (sums : Sums) :
  lookup k sums <> None ->
  (forall s, num_eq (field (f s)) (add (field s) d)) ->
  num_eq (sum (map field (values (modify k f sums))))
         (add (sum (map field (values sums))) d).
Proof.
  intros Hk Hf. unfold values.
  induction sums as [|[k0 v0] sums IH]; simpl in *; [congruence|].
  destruct (Category_eqb k k0) eqn:E; simpl; rewrite !sum_cons.
  - rewrite (Hf v0), !add_assoc.
    rewrite (add_comm d). reflexivity.
  - rewrite (IH Hk), add_assoc. reflexivity.
Qed.

Lemma sum_fresh (field : CategorySum.t -> number) (k : Category)
    (sums : Sums) :
  num_eq (field CategorySum.empty) zero ->
  num_eq (sum (map field (values (sums ++ [(k, CategorySum.empty)]))))
         (sum (map field (values sums))).
Proof.
  intros H0. unfold values. rewrite !map_app, sum_app. simpl.
  rewrite sum_cons, H0. change (sum []) with zero.
  rewrite (add_zero_r zero), add_zero_r. reflexivity.
Qed.

(** One round adds the expense's raw amount, when entered in VND, and its
    converted amount to the sum of the VND fields. *)
Lemma addExpense_sum_VND rates (sums : Sums) (e : Expense.t) :
  num_eq (sum (map CategorySum.VND (values (addExpense rates sums e))))
         (add (sum (map CategorySum.VND (values sums)))
              (add (nativeVND e) (converted rates e))).
Proof.
  unfold addExpense. rewrite modify_modify.
  set (k := Expense.category e).
  assert (Hf : forall s,
             num_eq
               (CategorySum.VND
                  (CategorySum.set
                     (CategorySum.set s (Expense.currency e)
                        (add (CategorySum.get s (Expense.currency e))
                             (Expense.amount e)))
                     Currency.VND
                     (add (CategorySum.VND
                             (CategorySum.set s (Expense.currency e)
                                (add (CategorySum.get s (Expense.currency e))
                                     (Expense.amount e))))
                          (convertToVND rates (Expense.amount e)
                             (Expense.currency e)))))
               (add (CategorySum.VND s)
                    (add (nativeVND e) (converted rates e)))).
  { intros s. unfold nativeVND, converted.
    destruct (Expense.currency e);
      cbn [CategorySum.VND CategorySum.set CategorySum.get].
    - rewrite add_zero_l. reflexivity.
    - rewrite add_zero_l. reflexivity.
    - apply add_assoc. }
  destruct (lookup k sums) as [s|] eqn:E.
  - apply (sum_modify CategorySum.VND k _
             (add (nativeVND e) (converted rates e)) sums); [|exact Hf].
    rewrite E. discriminate.
  - etransitivity.
    + apply (sum_modify CategorySum.VND k _
               (add (nativeVND e) (converted rates e))
               (sums ++ [(k, CategorySum.empty)])); [|exact Hf].
      rewrite lookup_app, E, Category_eqb_refl. discriminate.
    + rewrite sum_fresh; reflexivity.
Qed.

Lemma fold_addExpense_sum_VND rates (l : list Expense.t) : forall sums,
  num_eq
    (sum (map CategorySum.VND (values (fold_left (addExpense rates) l sums))))
    (add (sum (map CategorySum.VND (values sums)))
         (sum (map (fun e => add (nativeVND e) (converted rates e)) l))).
Proof.
  induction l as [|e l IH]; intros sums; simpl.
  - unfold sum at 3. simpl. rewrite add_zero_r. reflexivity.
  - rewrite IH, addExpense_sum_VND, sum_cons, add_assoc. reflexivity.
Qed.

(** The VND field of the grand total: over all expenses, the converted
    amounts plus the raw amounts of the expenses entered in VND. *)
Lemma totalSum_VND_over_expenses (l : list Expense.t) rates :
  num_eq (CategorySum.VND (totalSum (categorySums l rates)))
         (sum (map (fun e => add (nativeVND e) (converted rates e)) l)).
Proof.
  destruct (totalSum_fold (values (categorySums l rates)) CategorySum.empty)
    as (_ & _ & H).
  unfold totalSum. rewrite H.
  change (fold_left add
            (map CategorySum.VND (values (categorySums l rates)))
            (CategorySum.VND CategorySum.empty))
    with (sum (map CategorySum.VND (values (categorySums l rates)))).
  unfold categorySums. rewrite fold_addExpense_sum_VND.
  change (sum (map CategorySum.VND (values []))) with zero.
  apply add_zero_l.
Qed.

(** Without an expense entered in VND it is the sum of the converted
    amounts. *)
Lemma totalSum_VND_free (l : list Expense.t) rates :
  forallb (fun e => negb (Currency.eqb (Expense.currency e) Currency.VND)) l
    = true ->
  num_eq (CategorySum.VND (totalSum (categorySums l rates)))
         (convertedSum rates l).
Proof.
  intros H. rewrite totalSum_VND_over_expenses. unfold convertedSum.
  induction l as [|e l IH]; simpl; [reflexivity|].
  simpl in H. apply andb_true_iff in H. destruct H as [He Hl].
  rewrite !sum_cons, (IH Hl).
  unfold nativeVND. destruct (Expense.currency e);
    [rewrite add_zero_l; reflexivity
    |rewrite add_zero_l; reflexivity
    |discriminate].
Qed.

(* ================================================================== *)
(** ** Rounding each expense against rounding the sum *)

Lemma nearest_bounds (q : Q) :
  q - (1 # 2) < inject_Z (nearest q) /\ inject_Z (nearest q) <= q + (1 # 2).
Proof.
  unfold nearest.
  pose proof (Qfloor_le (q + (1 # 2))) as Hle.
  pose proof (Qlt_floor (q + (1 # 2))) as Hlt.
  rewrite inject_Z_plus in Hlt. change (inject_Z 1) with 1 in Hlt.
  split; lra.
Qed.

Lemma fold_add_Num (qs : list Q) : forall a,
  fold_left add (map Num qs) (Num a) = Num (fold_left Qplus qs a).
Proof.
  induction qs as [|q qs IH]; intros a; simpl; [reflexivity | apply IH].
Qed.

Lemma finite_values {A : Type} (f : A -> number) (l : list A) :
  Forall (fun x => isFinite (f x) = true) l ->
  exists qs, map f l = map Num qs.
Proof.
  induction 1 as [|x l Hx _ [qs IH]].
  - exists []. reflexivity.
  - destruct (f x) as [q| |] eqn:E; try discriminate.
    exists (q :: qs). simpl. rewrite E, IH. reflexivity.
Qed.

(** The sum of rounded values is an integer. *)
Lemma fold_nearest_integer (qs : list Q) : forall (c : Q) (b : Z),
  c == inject_Z b ->
  fold_left Qplus (map (fun q => inject_Z (nearest q)) qs) c ==
  inject_Z (fold_left Z.add (map nearest qs) b).
Proof.
  induction qs as [|q qs IH]; intros c b H; simpl; [exact H|].
  apply IH. rewrite inject_Z_plus, H. reflexivity.
Qed.

(** It lies within half a unit per summand of the exact sum. *)
Lemma fold_nearest_bounds (qs : list Q) : forall (a : Q) (b : Z),
  fold_left Qplus qs a - a - inject_Z (Z.of_nat (List.length qs)) * (1 # 2)
    <= inject_Z (fold_left Z.add (map nearest qs) b) - inject_Z b /\
  inject_Z (fold_left Z.add (map nearest qs) b) - inject_Z b
    <= fold_left Qplus qs a - a + inject_Z (Z.of_nat (List.length qs)) * (1 # 2).
Proof.
  induction qs as [|q qs IH]; intros a b.
  - cbn [fold_left map List.length].
    change (inject_Z (Z.of_nat 0)) with 0. split; lra.
  - cbn [fold_left map List.length].
    destruct (IH (a + q) (b + nearest q)%Z) as [Hlo Hhi].
    destruct (nearest_bounds q) as [Hq1 Hq2].
    rewrite Nat2Z.inj_succ, <- Z.add_1_r, inject_Z_plus.
    rewrite inject_Z_plus in Hlo, Hhi.
    change (inject_Z 1) with 1.
    split; lra.
Qed.

(** An integer strictly within [(n + 1) / 2] of 0 is within [n / 2]. *)
Lemma half_integer_bound (k n : Z) :
  - ((inject_Z n + 1) * (1 # 2)) < inject_Z k ->
  inject_Z k < (inject_Z n + 1) * (1 # 2) ->
  Qabs (inject_Z k) <= inject_Z n * (1 # 2).
Proof.
  intros Hlo Hhi. apply Qabs_Qle_condition.
  assert (H1 : inject_Z (2 * k) < inject_Z (n + 1)).
  { rewrite inject_Z_mult, inject_Z_plus.
    change (inject_Z 2) with 2. change (inject_Z 1) with 1. lra. }
  assert (H2 : inject_Z (- n - 1) < inject_Z (2 * k)).
  { rewrite inject_Z_mult. unfold Z.sub. rewrite inject_Z_plus, inject_Z_opp.
    change (inject_Z 2) with 2. change (inject_Z (- (1))) with (- (1)). lra. }
  rewrite <- Zlt_Qlt in H1, H2.
  assert (H3 : (2 * k <= n)%Z) by lia.
  assert (H4 : (- n <= 2 * k)%Z) by lia.
  rewrite Zle_Qle in H3, H4.
  rewrite inject_Z_mult in H3, H4. rewrite inject_Z_opp in H4.
  change (inject_Z 2) with 2 in H3, H4.
  split; lra.
Qed.

(** Rounding [n] finite values one by one and adding them differs from
    rounding their sum by at most [n / 2]. *)
Lemma nearest_sum_bound (qs : list Q) :
  Qabs (fold_left Qplus (map (fun q => inject_Z (nearest q)) qs) 0
        - inject_Z (nearest (fold_left Qplus qs 0)))
  <= inject_Z (Z.of_nat (List.length qs)) * (1 # 2).
Proof.
  destruct qs as [|q qs].
  - vm_compute. discriminate.
  - cbn [fold_left map List.length].
    set (S := fold_left Qplus qs (0 + q)).
    set (r := fold_left Z.add (map nearest qs) (nearest q)).
    assert (HR : fold_left Qplus (map (fun q => inject_Z (nearest q)) qs)
                   (0 + inject_Z (nearest q)) == inject_Z r).
    { apply fold_nearest_integer. lra. }
    rewrite HR.
    assert (Hk : inject_Z r - inject_Z (nearest S) ==
                 inject_Z (r - nearest S)).
    { unfold Z.sub. rewrite inject_Z_plus, inject_Z_opp. reflexivity. }
    rewrite Hk.
    destruct (fold_nearest_bounds qs (0 + q) (nearest q)) as [Hlo Hhi].
    fold S in Hlo, Hhi. fold r in Hlo, Hhi.
    destruct (nearest_bounds q) as [Hq1 Hq2].
    destruct (nearest_bounds S) as [HS1 HS2].
    rewrite Nat2Z.inj_succ, <- Z.add_1_r.
    apply (half_integer_bound (r - nearest S) (Z.of_nat (List.length qs) + 1));
      rewrite <- Hk, inject_Z_plus; change (inject_Z 1) with 1; lra.
Qed.

(** The caveat of the specification, for the sum of the converted amounts:
    with finite products, the sum of the [n] conversions, each rounded,
    differs from the rounded sum of the unrounded ones by at most [n / 2]. *)
Lemma per_expense_rounding_bound rates (l : list Expense.t) :
  Forall (fun e => isFinite (unroundedVND rates (Expense.amount e)
                               (Expense.currency e)) = true) l ->
  exists d : Q,
    sub (convertedSum rates l) (round (unroundedSum rates l)) = Num d /\
    Qabs d <= inject_Z (Z.of_nat (List.length l)) * (1 # 2).
Proof.
  intros H. destruct (finite_values _ l H) as [qs Hqs].
  assert (Hlen : List.length l = List.length qs).
  { rewrite <- (length_map (fun e => unroundedVND rates (Expense.amount e)
                                        (Expense.currency e)) l), Hqs.
    apply length_map. }
  assert (Hconv : map (converted rates) l =
                  map Num (map (fun q => inject_Z (nearest q)) qs)).
  { rewrite map_map.
    change (fun x : Q => Num (inject_Z (nearest x)))
      with (fun x : Q => round (Num x)).
    rewrite <- (map_map Num round), <- Hqs, map_map.
    apply map_ext. intros e. apply convertToVND_unrounded. }
  unfold convertedSum, unroundedSum, sum, zero.
  rewrite Hconv, Hqs, !fold_add_Num. simpl.
  eexists. split; [reflexivity|].
  rewrite Hlen. apply nearest_sum_bound.
Qed.

#[export] Instance sub_Proper : Proper (num_eq ==> num_eq ==> num_eq) sub.
Proof.
  intros [q|s|] [r|t|] H1 [u|v|] [w|x|] H2; simpl in *; try tauto;
    subst; try reflexivity.
  all: try (rewrite H1, H2; reflexivity).
  all: destruct (Bool.eqb t x); simpl; [exact I | reflexivity].
Qed.

(** The same bound for the grand total of the code, on a list without an
    expense entered in VND. *)
Lemma totalSum_rounding_bound_VND_free rates (l : list Expense.t) :
  forallb (fun e => negb (Currency.eqb (Expense.currency e) Currency.VND)) l
    = true ->
  Forall (fun e => isFinite (unroundedVND rates (Expense.amount e)
                               (Expense.currency e)) = true) l ->
  exists d : Q,
    num_eq (sub (CategorySum.VND (totalSum (categorySums l rates)))
                (round (unroundedSum rates l))) (Num d) /\
    Qabs d <= inject_Z (Z.of_nat (List.length l)) * (1 # 2).
Proof.
  intros Hfree Hfin.
  destruct (per_expense_rounding_bound rates l Hfin) as [d [Hd Hle]].
  exists d. split; [|exact Hle].
  rewrite (totalSum_VND_free l rates Hfree), Hd. reflexivity.
Qed.

(** C10 at the input where the code departs from it. After a refresh that
    delivers the rates USD 2 and VND 25000, one expense of 1000 entered in
    VND is submitted. Its unrounded conversion is 1000, the VND field of the
    grand total is 2000, and the two differ by 1000, which exceeds one
    half. *)
Theorem grand_total_VND_off_by_native_amount :
  expenses
    (run [FetchStart; FetchSettle (Json (Some (Num 2, Num 25000)));
          ChangeAmount "1000"; ChangeCurrency Currency.VND;
          ChangeCategory Other; ChangeDescription "rent"; Submit 1]
         initial) =
    [Expense.make 1 (Num 1000) Currency.VND Other "rent"] /\
  CategorySum.VND
    (renderTotalSum
       (run [FetchStart; FetchSettle (Json (Some (Num 2, Num 25000)));
             ChangeAmount "1000"; ChangeCurrency Currency.VND;
             ChangeCategory Other; ChangeDescription "rent"; Submit 1]
            initial)) = Num 2000 /\
  round (unroundedSum (ExchangeRates.make (Num 1) (Num 2) (Num 25000))
           [Expense.make 1 (Num 1000) Currency.VND Other "rent"]) = Num 1000 /\
  sub (Num 2000) (Num 1000) = Num (2000 - 1000) /\
  ~ Qabs (2000 - 1000) <= inject_Z (Z.of_nat 1) * (1 # 2).
Proof.
  split; [reflexivity|]. split; [reflexivity|]. split; [reflexivity|].
  split; [reflexivity|].
  intros H. vm_compute in H. apply H. reflexivity.
Qed.

(* ================================================================== *)
(** ** Further properties of the conversion *)

Lemma nearest_comp (p q : Q) : p == q -> nearest p = nearest q.
Proof. intros H. unfold nearest. rewrite H. reflexivity. Qed.

Lemma isFinite_mul_l (x y : number) :
  isFinite x = false -> isFinite (mul x y) = false.
Proof.
  destruct x as [q|s|], y as [r|t|]; simpl; try discriminate;
    try reflexivity.
  intros _. unfold scaleInf. destruct (r ?= 0); reflexivity.
Qed.

Lemma isFinite_round (x : number) : isFinite (round x) = isFinite x.
Proof. destruct x; reflexivity. Qed.

(** X1. With the rate table of the first render, [{ EUR: 1, USD: 1, VND: 1 }],
    which stays in place until a refresh delivers rates, the conversion of
    any amount from any currency is the amount itself, rounded. *)
Theorem convertToVND_default_table (a : number) (c : Currency.t) :
  convertToVND (exchangeRates initial) a c = round a.
Proof.
  destruct a as [q|s|]; destruct c; try reflexivity;
    cbn -[nearest Qmult Qdiv]; do 2 f_equal; apply nearest_comp; field.
Qed.

(** X3. The division by the rate is not guarded: when the rate of a
    currency other than EUR is zero, no amount in that currency converts to
    a finite number (the result is NaN or an infinity). *)
Theorem convertToVND_zero_rate (rates : ExchangeRates.t) (a : number)
    (c : Currency.t) (r : Q)
    (Hc : Currency.eqb c Currency.EUR = false)
    (Hrate : ExchangeRates.get rates c = Num r) (Hzero : r == 0) :
  isFinite (convertToVND rates a c) = false.
Proof.
  assert (Hdiv : isFinite (div a (Num r)) = false).
  { destruct a as [q|s|]; simpl; [|destruct (Qlt_le_dec r 0); reflexivity
                                  |reflexivity].
    rewrite (proj2 (Qeq_bool_iff r 0) Hzero).
    destruct (q ?= 0); reflexivity. }
  unfold convertToVND. rewrite isFinite_round.
  destruct c; [discriminate Hc| |]; rewrite Hrate;
    apply isFinite_mul_l, Hdiv.
Qed.

Lemma convertToVND_zero_rate_witness :
  Currency.eqb Currency.USD Currency.EUR = false /\
  ExchangeRates.get (ExchangeRates.make (Num 1) (Num 0) (Num 25000))
    Currency.USD = Num 0 /\
  0 == 0 /\
  isFinite (convertToVND (ExchangeRates.make (Num 1) (Num 0) (Num 25000))
              (Num 5) Currency.USD) = false.
Proof.
  split; [reflexivity|]. split; [reflexivity|]. split; [reflexivity|].
  exact (convertToVND_zero_rate
           (ExchangeRates.make (Num 1) (Num 0) (Num 25000)) (Num 5)
           Currency.USD 0 eq_refl eq_refl (Qeq_refl 0)).
Defined.

Lemma nearest_le (p q : Q) : p <= q -> (nearest p <= nearest q)%Z.
Proof.
  intros H. unfold nearest. apply Qfloor_resp_le. lra.
Qed.

(** X4. With a positive rate for the currency and a positive VND rate, a
    larger amount never converts to a smaller one: for finite amounts
    [a <= b] the conversion of [a] is at most that of [b]. *)
Theorem convertToVND_monotone (rates : ExchangeRates.t) (c : Currency.t)
    (r v a b : Q)
    (Hrate : ExchangeRates.get rates c = Num r) (Hr : 0 < r)
    (Hvnd : ExchangeRates.VND rates = Num v) (Hv : 0 < v)
    (Hab : a <= b) :
  lessEq (convertToVND rates (Num a) c) (convertToVND rates (Num b) c) = true.
Proof.
  assert (Hnz : Qeq_bool r 0 = false).
  { destruct (Qeq_bool r 0) eqn:E; [|reflexivity].
    apply Qeq_bool_iff in E. rewrite E in Hr. discriminate Hr. }
  assert (Hinv : 0 < / r) by (apply Qinv_lt_0_compat, Hr).
  assert (Hv' : 0 <= v) by (apply Qlt_le_weak, Hv).
  assert (Hdiv : a / r * v <= b / r * v).
  { apply Qmult_le_compat_r; [|exact Hv'].
    apply Qmult_le_compat_r; [exact Hab | apply Qlt_le_weak, Hinv]. }
  unfold convertToVND. rewrite Hvnd.
  destruct c.
  - cbn [mul round lessEq]. apply Qle_bool_iff. rewrite <- Zle_Qle.
    apply nearest_le. apply Qmult_le_compat_r; [exact Hab | exact Hv'].
  - rewrite Hrate. unfold div. rewrite Hnz.
    cbn [mul round lessEq]. apply Qle_bool_iff. rewrite <- Zle_Qle.
    apply nearest_le, Hdiv.
  - rewrite Hrate. unfold div. rewrite Hnz.
    cbn [mul round lessEq]. apply Qle_bool_iff. rewrite <- Zle_Qle.
    apply nearest_le, Hdiv.
Qed.

Lemma convertToVND_monotone_witness :
  ExchangeRates.get (ExchangeRates.make (Num 1) (Num 2) (Num 25000))
    Currency.USD = Num 2 /\
  lessEq
    (convertToVND (ExchangeRates.make (Num 1) (Num 2) (Num 25000))
       (Num 3) Currency.USD)
    (convertToVND (ExchangeRates.make (Num 1) (Num 2) (Num 25000))
       (Num 5) Currency.USD) = true.
Proof.
  split; [reflexivity|].
  apply (convertToVND_monotone
           (ExchangeRates.make (Num 1) (Num 2) (Num 25000)) Currency.USD
           2 25000 3 5 eq_refl).
  - reflexivity.
  - reflexivity.
  - reflexivity.
  - discriminate.
Defined.

(* ================================================================== *)
(** ** Further properties of the rate table *)

Lemma lastFetched_EUR (events : list Event) : forall table,
  ExchangeRates.EUR table = Num 1 ->
  ExchangeRates.EUR (lastFetched events table) = Num 1.
Proof.
  induction events as [|ev events IH]; intros table H; simpl; [exact H|].
  destruct ev as [v|v|v|v|now| |r]; try (apply IH, H).
  destruct r as [| |[[usd vnd]|]]; apply IH; [exact H|exact H|reflexivity|exact H].
Qed.

(** X5. Whatever happens, the rate of EUR in the table is 1: the first
    table has it and every refresh that delivers rates writes it again. So
    the special case of [convertToEUR] for an amount in EUR agrees with the
    general one, the division by the rate of the currency. *)
Theorem EUR_rate_is_one (events : list Event) :
  ExchangeRates.EUR (exchangeRates (run events initial)) = Num 1 /\
  (forall (a : number) (c : Currency.t),
      num_eq (convertToEUR (exchangeRates (run events initial)) a c)
             (div a (ExchangeRates.get (exchangeRates (run events initial))
                       c))).
Proof.
  assert (H : ExchangeRates.EUR (exchangeRates (run events initial)) = Num 1).
  { rewrite run_lastFetched. apply lastFetched_EUR. reflexivity. }
  split; [exact H|].
  intros a c. destruct c; try reflexivity.
  cbn [convertToEUR ExchangeRates.get]. rewrite H.
  destruct a as [q|s|]; simpl; [field | reflexivity | exact I].
Qed.

(* ================================================================== *)
(** ** Further properties of the submissions *)

(** X6. Submitting twice in a row adds at most one expense: an accepted
    submission empties the amount field, so the next one is rejected, and a
    rejected one leaves the field as it is. The second submission raises the
    error notification. *)
Theorem handleSubmit_twice (now1 now2 : Z) (st : Home) :
  expenses (handleSubmit now2 (handleSubmit now1 st)) =
    expenses (handleSubmit now1 st) /\
  toasts (handleSubmit now2 (handleSubmit now1 st)) =
    toasts (handleSubmit now1 st) ++
    [ToastError "Please enter a valid amount"].
Proof.
  destruct (isNaN (parseFloat (amount st))) eqn:H.
  - rewrite (handleSubmit_rejects now1 st H).
    rewrite handleSubmit_rejects; [split; reflexivity | exact H].
  - rewrite (handleSubmit_accepts now1 st H).
    rewrite handleSubmit_rejects; [split; reflexivity | reflexivity].
Qed.

(** X7. A submission never touches the chosen currency and category, the
    rate table or the loading flag. When it is accepted the amount and the
    description are emptied and the new expense carries the form's values;
    when it is rejected the whole form stays as typed. *)
Theorem handleSubmit_form (now : Z) (st : Home) :
  currency (handleSubmit now st) = currency st /\
  category (handleSubmit now st) = category st /\
  exchangeRates (handleSubmit now st) = exchangeRates st /\
  isLoading (handleSubmit now st) = isLoading st /\
  if isNaN (parseFloat (amount st))
  then amount (handleSubmit now st) = amount st /\
       description (handleSubmit now st) = description st
  else amount (handleSubmit now st) = EmptyString /\
       description (handleSubmit now st) = EmptyString /\
       last (expenses (handleSubmit now st)) (newExpense 0 initial) =
         Expense.make now (parseFloat (amount st)) (currency st)
                      (category st) (description st).
Proof.
  destruct (isNaN (parseFloat (amount st))) eqn:H.
  - rewrite (handleSubmit_rejects now st H). repeat split.
  - rewrite (handleSubmit_accepts now st H). cbn.
    rewrite last_last. repeat split.
Qed.

Lemma step_successes st ev :
  (List.length (expenses (step st ev))
   + List.length (filter isSuccess (toasts st)) =
   List.length (filter isSuccess (toasts (step st ev)))
   + List.length (expenses st))%nat.
Proof.
  destruct ev as [v|v|v|v|now| |r]; simpl; try apply Nat.add_comm.
  - destruct (isNaN (parseFloat (amount st))) eqn:H.
    + rewrite (handleSubmit_rejects now st H). simpl.
      rewrite filter_app. simpl. rewrite app_nil_r. apply Nat.add_comm.
    + rewrite (handleSubmit_accepts now st H). simpl.
      rewrite filter_app, !length_app. simpl. lia.
  - destruct r as [| |[[usd vnd]|]]; simpl;
      rewrite ?filter_app; simpl; rewrite ?app_nil_r; apply Nat.add_comm.
Qed.

Lemma run_successes events : forall st,
  (List.length (expenses (run events st))
   + List.length (filter isSuccess (toasts st)) =
   List.length (filter isSuccess (toasts (run events st)))
   + List.length (expenses st))%nat.
Proof.
  induction events as [|ev events IH]; intros st; simpl.
  - apply Nat.add_comm.
  - pose proof (IH (step st ev)) as H1.
    pose proof (step_successes st ev) as H2. lia.
Qed.

(** X8. Every stored expense was announced and nothing else was: after any
    run of events from the first render, the number of stored expenses is
    the number of success notifications raised. *)
Theorem expenses_match_success_toasts (events : list Event) :
  List.length (expenses (run events initial)) =
  List.length (filter isSuccess (toasts (run events initial))).
Proof.
  pose proof (run_successes events initial) as H. simpl in H. lia.
Qed.

Lemma StronglySorted_remove {A : Type} (R : A -> A -> Prop) (x : A)
    (l1 l2 : list A) :
  StronglySorted R (l1 ++ x :: l2) -> StronglySorted R (l1 ++ l2).
Proof.
  induction l1 as [|a l1 IH]; simpl; intros H.
  - inversion H; assumption.
  - inversion H as [|y l Hs Hf]; subst. constructor; [apply IH, Hs|].
    apply Forall_app in Hf. destruct Hf as [Hf1 Hf2].
    apply Forall_app. split; [exact Hf1|]. inversion Hf2; assumption.
Qed.

Lemma StronglySorted_lt_NoDup (l : list Z) :
  StronglySorted Z.lt l -> NoDup l.
Proof.
  induction 1 as [|a l Hs IH Hf]; constructor; [|exact IH].
  intros Hin. rewrite Forall_forall in Hf. specialize (Hf a Hin). lia.
Qed.

Lemma run_ids_sorted events : forall st,
  StronglySorted Z.lt (map Expense.id (expenses st) ++ submitTimes events) ->
  StronglySorted Z.lt (map Expense.id (expenses (run events st))).
Proof.
  induction events as [|ev events IH]; intros st H; simpl.
  - simpl in H. rewrite app_nil_r in H. exact H.
  - apply IH.
    destruct ev as [v|v|v|v|now| |r]; simpl in *; try exact H.
    + destruct (isNaN (parseFloat (amount st))) eqn:Hnan.
      * rewrite (handleSubmit_rejects now st Hnan). simpl.
        apply (StronglySorted_remove _ now), H.
      * rewrite (handleSubmit_accepts now st Hnan). simpl.
        rewrite map_app, <- app_assoc. exact H.
    + destruct r as [| |[[usd vnd]|]]; exact H.
Qed.

(** X9. The identifier of an expense is the clock reading of its
    submission. If the readings of the successive submissions of a run
    increase strictly, the identifiers of the stored expenses increase
    strictly along the sequence, and so no two expenses share one. *)
Theorem ids_distinct_under_increasing_clock (events : list Event)
    (Hclock : StronglySorted Z.lt (submitTimes events)) :
  StronglySorted Z.lt (map Expense.id (expenses (run events initial))) /\
  NoDup (map Expense.id (expenses (run events initial))).
Proof.
  assert (H : StronglySorted Z.lt
                (map Expense.id (expenses (run events initial)))).
  { apply run_ids_sorted. exact Hclock. }
  split; [exact H | apply StronglySorted_lt_NoDup, H].
Qed.

Lemma ids_distinct_under_increasing_clock_witness :
  StronglySorted Z.lt
    (submitTimes [ChangeAmount "4"; Submit 10; Submit 11;
                  ChangeAmount "6"; Submit 12]) /\
  NoDup (map Expense.id
           (expenses (run [ChangeAmount "4"; Submit 10; Submit 11;
                           ChangeAmount "6"; Submit 12] initial))).
Proof.
  assert (H : StronglySorted Z.lt
                (submitTimes [ChangeAmount "4"; Submit 10; Submit 11;
                              ChangeAmount "6"; Submit 12])).
  { simpl. repeat constructor. }
  split; [exact H|].
  exact (proj2 (ids_distinct_under_increasing_clock _ H)).
Defined.

Lemma sameForm_refl (a : Home) : sameForm a a.
Proof. repeat split. Qed.

Lemma step_sameForm (a b : Home) (ev : Event) :
  sameForm a b -> sameForm (step a ev) (step b ev).
Proof.
  intros (He & Ha & Hc & Hk & Hd).
  destruct a, b; simpl in *; subst.
  destruct ev as [v|v|v|v|now| |r]; simpl.
  1-4, 6: repeat split.
  - unfold handleSubmit, newExpense; simpl.
    destruct (negb (truthy amount1) || isNaN (parseFloat amount1));
      repeat split.
  - destruct r as [| |[[usd vnd]|]]; repeat split.
Qed.

Lemma step_refresh_sameForm (a : Home) (ev : Event) :
  isFormEvent ev = false -> sameForm (step a ev) a.
Proof.
  destruct ev as [v|v|v|v|now| |r]; try discriminate; intros _.
  - repeat split.
  - destruct r as [| |[[usd vnd]|]]; repeat split.
Qed.

Lemma sameForm_trans (a b c : Home) :
  sameForm a b -> sameForm b c -> sameForm a c.
Proof.
  intros (H1 & H2 & H3 & H4 & H5) (K1 & K2 & K3 & K4 & K5).
  repeat split; congruence.
Qed.

Lemma run_sameForm events : forall a b,
  sameForm a b ->
  sameForm (run events a) (run (filter isFormEvent events) b).
Proof.
  induction events as [|ev events IH]; intros a b H; simpl; [exact H|].
  destruct (isFormEvent ev) eqn:E; simpl.
  - apply IH, step_sameForm, H.
  - apply IH. apply (sameForm_trans _ a); [|exact H].
    apply step_refresh_sameForm, E.
Qed.

(** X10. The rate refresh and the form do not interfere. The stored
    expenses and the contents of the form after a run of events are those of
    the run without its refresh events, whenever the refreshes start, settle
    or fail in between; and the rate table is that of the refresh events
    alone. *)
Theorem refresh_and_form_independent (events : list Event) :
  sameForm (run events initial) (run (filter isFormEvent events) initial) /\
  exchangeRates (run events initial) =
    exchangeRates
      (run (filter (fun ev => negb (isFormEvent ev)) events) initial).
Proof.
  split.
  - apply run_sameForm, sameForm_refl.
  - rewrite !run_lastFetched. generalize (exchangeRates initial).
    induction events as [|ev events IH]; intros table; [reflexivity|].
    destruct ev as [v|v|v|v|now| |r]; simpl; try apply IH.
    destruct r as [| |[[usd vnd]|]]; apply IH.
Qed.

(* ================================================================== *)
(** ** Further properties of the category sums *)

Lemma existsb_keys (k : Category) (sums : Sums) :
  existsb (Category_eqb k) (map fst sums) =
    match lookup k sums with
    | Some _ => true
    | None => false
    end.
Proof.
  induction sums as [|[k0 v0] sums IH]; simpl; [reflexivity|].
  destruct (Category_eqb k k0); simpl; [reflexivity | exact IH].
Qed.

Lemma addExpense_keys rates (sums : Sums) (e : Expense.t) :
  map fst (addExpense rates sums e) =
    if existsb (Category_eqb (Expense.category e)) (map fst sums)
    then map fst sums
    else map fst sums ++ [Expense.category e].
Proof.
  unfold addExpense. rewrite !modify_keys, existsb_keys.
  destruct (lookup (Expense.category e) sums); [reflexivity|].
  rewrite map_app. reflexivity.
Qed.

Lemma fold_addExpense_keys rates (l : list Expense.t) : forall sums,
  map fst (fold_left (addExpense rates) l sums) =
    fold_left (fun seen k =>
                 if existsb (Category_eqb k) seen then seen else seen ++ [k])
              (map Expense.category l) (map fst sums).
Proof.
  induction l as [|e l IH]; intros sums; simpl; [reflexivity|].
  rewrite IH, addExpense_keys. reflexivity.
Qed.

(** X11. The object of category sums has a property exactly for the
    categories that have an expense, each once, in the order in which the
    categories first occur in the expense sequence; this is the order in
    which [totalSum] adds them up. *)
Theorem categorySums_keys (l : list Expense.t) (rates : ExchangeRates.t) :
  map fst (categorySums l rates) = firstSeen (map Expense.category l) /\
  NoDup (map fst (categorySums l rates)) /\
  (forall k,
      match lookup k (categorySums l rates) with
      | Some _ => inCategory k l <> []
      | None => inCategory k l = []
      end).
Proof.
  split; [|split].
  - unfold categorySums, firstSeen. apply (fold_addExpense_keys rates l []).
  - apply categorySums_keys_NoDup.
  - intros k. rewrite categorySums_lookup.
    destruct (inCategory k l); [reflexivity | discriminate].
Qed.

Lemma inCategory_idempotent (k : Category) (l : list Expense.t) :
  inCategory k (inCategory k l) = inCategory k l.
Proof.
  unfold inCategory. induction l as [|e l IH]; simpl; [reflexivity|].
  destruct (Category_eqb (Expense.category e) k) eqn:E; simpl;
    [rewrite E, IH; reflexivity | exact IH].
Qed.

(** X12. The categories do not interfere: the accumulator of a category is
    the one obtained from the expenses of that category alone, whatever is
    entered in the other categories and wherever in the sequence. *)
Theorem categorySums_isolated (l : list Expense.t) (rates : ExchangeRates.t)
    (k : Category) :
  lookup k (categorySums l rates) =
  lookup k (categorySums (inCategory k l) rates).
Proof.
  rewrite !categorySums_lookup, inCategory_idempotent. reflexivity.
Qed.

Lemma accumulate_native rates (c : Currency.t) (l : list Expense.t) :
  Currency.eqb c Currency.VND = false ->
  forall s,
    CategorySum.get (fold_left (accumulate rates) l s) c =
    fold_left add (map Expense.amount (enteredIn c l)) (CategorySum.get s c).
Proof.
  intros Hc. induction l as [|e l IH]; intros s; simpl; [reflexivity|].
  rewrite IH. unfold accumulate.
  destruct c; [| |discriminate Hc];
    destruct (Expense.currency e); reflexivity.
Qed.

(** X13. The EUR and the USD field of a category are subtotals of raw
    amounts: each is the sum, in sequence order, of the amounts of the
    expenses of that category entered in that currency. No expense in
    another currency and no rate enters them. *)
Theorem categorySums_native_subtotals (l : list Expense.t)
    (rates : ExchangeRates.t) (k : Category) :
  CategorySum.EUR (accumulator k (categorySums l rates)) =
    sum (map Expense.amount (enteredIn Currency.EUR (inCategory k l))) /\
  CategorySum.USD (accumulator k (categorySums l rates)) =
    sum (map Expense.amount (enteredIn Currency.USD (inCategory k l))).
Proof.
  unfold accumulator. rewrite categorySums_lookup.
  destruct (inCategory k l) as [|e l'] eqn:E; [split; reflexivity|].
  split.
  - apply (accumulate_native rates Currency.EUR (e :: l') eq_refl
             CategorySum.empty).
  - apply (accumulate_native rates Currency.USD (e :: l') eq_refl
             CategorySum.empty).
Qed.

Lemma entries_by_keys (sums : Sums) :
  NoDup (map fst sums) ->
  sums = map (fun k => (k, accumulator k sums)) (map fst sums).
Proof.
  induction sums as [|[k0 v0] sums IH]; intros Hnd; [reflexivity|].
  inversion Hnd as [|x l Hnotin Hnd' Heq]; subst.
  cbn [map fst]. f_equal.
  - unfold accumulator. simpl. rewrite Category_eqb_refl. reflexivity.
  - rewrite (IH Hnd') at 1. apply map_ext_in. intros k Hk.
    unfold accumulator. simpl.
    destruct (Category_eqb k k0) eqn:E; [|reflexivity].
    apply Category_eqb_eq in E. subst k0. contradiction.
Qed.

(** The whole object: one entry per category in the order of first
    occurrence, holding that category's expenses accumulated in sequence
    order. *)
Lemma categorySums_entries (l : list Expense.t) rates :
  categorySums l rates =
    map (fun k =>
           (k, fold_left (accumulate rates) (inCategory k l)
                         CategorySum.empty))
        (firstSeen (map Expense.category l)).
Proof.
  rewrite (entries_by_keys (categorySums l rates)
             (categorySums_keys_NoDup l rates)) at 1.
  assert (Hkeys : map fst (categorySums l rates) =
                  firstSeen (map Expense.category l)).
  { unfold categorySums, firstSeen. apply (fold_addExpense_keys rates l []). }
  rewrite Hkeys. apply map_ext. intros k. f_equal.
  unfold accumulator. rewrite categorySums_lookup.
  destruct (inCategory k l); reflexivity.
Qed.

Lemma totalSum_over_categories (l : list Expense.t) rates
    (field : CategorySum.t -> number) :
  sum (map field (values (categorySums l rates))) =
    sum (map (fun k =>
                field (fold_left (accumulate rates) (inCategory k l)
                                 CategorySum.empty))
             (firstSeen (map Expense.category l))).
Proof.
  rewrite categorySums_entries at 1. unfold values.
  rewrite !map_map. reflexivity.
Qed.

(** X14. The EUR amount of "Total Expenses" is made of the amounts entered
    in EUR and of nothing else: it is the sum, over the categories in the
    order of their first occurrence, of the sum in sequence order of the
    amounts of the category's expenses entered in EUR. The expenses entered
    in USD or VND are not converted into it, and no rate enters it. The
    same holds for the USD field of the grand total. *)
Theorem totalSum_native_totals (l : list Expense.t)
    (rates : ExchangeRates.t) :
  CategorySum.EUR (totalSum (categorySums l rates)) =
    sum (map (fun k =>
                sum (map Expense.amount
                       (enteredIn Currency.EUR (inCategory k l))))
             (firstSeen (map Expense.category l))) /\
  CategorySum.USD (totalSum (categorySums l rates)) =
    sum (map (fun k =>
                sum (map Expense.amount
                       (enteredIn Currency.USD (inCategory k l))))
             (firstSeen (map Expense.category l))).
Proof.
  destruct (totalSum_fold (values (categorySums l rates)) CategorySum.empty)
    as (HE & HU & _).
  unfold totalSum. rewrite HE, HU.
  change (fold_left add ?x (CategorySum.EUR CategorySum.empty))
    with (sum x).
  change (fold_left add ?x (CategorySum.USD CategorySum.empty))
    with (sum x).
  rewrite !totalSum_over_categories. split; f_equal; apply map_ext; intros k.
  - apply (accumulate_native rates Currency.EUR (inCategory k l) eq_refl
             CategorySum.empty).
  - apply (accumulate_native rates Currency.USD (inCategory k l) eq_refl
             CategorySum.empty).
Qed.

(** X15. The VND amount of "Total Expenses" is the sum, over the categories
    in the order of their first occurrence, of the VND field of each, and
    that field is built from the category's expenses in sequence order:
    each expense adds its raw amount when it is entered in VND, and then
    its converted amount. *)
Theorem totalSum_VND_by_category (l : list Expense.t)
    (rates : ExchangeRates.t) :
  CategorySum.VND (totalSum (categorySums l rates)) =
    sum (map (fun k =>
                fold_left
                  (fun acc e =>
                     add (match Expense.currency e with
                          | Currency.VND => add acc (Expense.amount e)
                          | _ => acc
                          end) (converted rates e))
                  (inCategory k l) zero)
             (firstSeen (map Expense.category l))).
Proof.
  destruct (totalSum_fold (values (categorySums l rates)) CategorySum.empty)
    as (_ & _ & HV).
  unfold totalSum. rewrite HV.
  change (fold_left add ?x (CategorySum.VND CategorySum.empty))
    with (sum x).
  rewrite totalSum_over_categories. f_equal. apply map_ext. intros k.
  apply accumulate_VND.
Qed.

(** X25. The VND amount of a "Category Total" is built from the expenses of
    the category alone, in sequence order: each adds its raw amount when it
    is entered in VND, and then its converted amount. *)
Theorem category_VND_field (l : list Expense.t) (rates : ExchangeRates.t)
    (k : Category) :
  CategorySum.VND (accumulator k (categorySums l rates)) =
    fold_left
      (fun acc e =>
         add (match Expense.currency e with
              | Currency.VND => add acc (Expense.amount e)
              | _ => acc
              end) (converted rates e))
      (inCategory k l) zero.
Proof.
  unfold accumulator. rewrite categorySums_lookup.
  destruct (inCategory k l) as [|e l'] eqn:E; [reflexivity|].
  apply (accumulate_VND rates (e :: l') CategorySum.empty).
Qed.

(** X16. For a category none of whose expenses is entered in VND, the VND
    field of the accumulator is the sum of the converted amounts listed
    under the category. *)
Theorem category_VND_without_VND_expenses (l : list Expense.t)
    (rates : ExchangeRates.t) (k : Category)
    (Hfree : enteredIn Currency.VND (inCategory k l) = []) :
  CategorySum.VND (accumulator k (categorySums l rates)) =
    convertedSum rates (inCategory k l).
Proof.
  apply categorySums_VND_free.
  unfold enteredIn in Hfree.
  induction (inCategory k l) as [|e l' IH]; [reflexivity|].
  simpl in *. destruct (Currency.eqb (Expense.currency e) Currency.VND);
    [discriminate Hfree | apply IH, Hfree].
Qed.

Lemma category_VND_without_VND_expenses_witness :
  enteredIn Currency.VND
    (inCategory Groceries
       [Expense.make 1 (Num 10) Currency.EUR Groceries "bread";
        Expense.make 2 (Num 7) Currency.VND Other "bus";
        Expense.make 3 (Num 5) Currency.USD Groceries "milk"]) = [] /\
  CategorySum.VND
    (accumulator Groceries
       (categorySums
          [Expense.make 1 (Num 10) Currency.EUR Groceries "bread";
           Expense.make 2 (Num 7) Currency.VND Other "bus";
           Expense.make 3 (Num 5) Currency.USD Groceries "milk"]
          (ExchangeRates.make (Num 1) (Num 2) (Num 25000)))) =
  convertedSum (ExchangeRates.make (Num 1) (Num 2) (Num 25000))
    (inCategory Groceries
       [Expense.make 1 (Num 10) Currency.EUR Groceries "bread";
        Expense.make 2 (Num 7) Currency.VND Other "bus";
        Expense.make 3 (Num 5) Currency.USD Groceries "milk"]).
Proof.
  split; [reflexivity|].
  apply (category_VND_without_VND_expenses
           [Expense.make 1 (Num 10) Currency.EUR Groceries "bread";
            Expense.make 2 (Num 7) Currency.VND Other "bus";
            Expense.make 3 (Num 5) Currency.USD Groceries "milk"]
           (ExchangeRates.make (Num 1) (Num 2) (Num 25000)) Groceries).
  reflexivity.
Defined.

Lemma num_eq_NaN (x : number) : num_eq x NaN -> x = NaN.
Proof. destruct x; simpl; [tauto | tauto | reflexivity]. Qed.

Lemma add_NaN_r (x : number) : add x NaN = NaN.
Proof. destruct x; reflexivity. Qed.

Lemma sum_NaN (l : list number) : In NaN l -> sum l = NaN.
Proof.
  induction l as [|x l IH]; intros H; [destruct H|].
  apply num_eq_NaN. rewrite sum_cons.
  destruct H as [H|H].
  - subst x. reflexivity.
  - rewrite (IH H), add_NaN_r. reflexivity.
Qed.

(** X20. One NaN spoils the total: if the conversion of some expense is NaN
    (as it is for every expense once a refresh has stored a table whose VND
    rate is no number), the VND amount of "Total Expenses" is NaN. *)
Theorem totalSum_VND_NaN (l : list Expense.t) (rates : ExchangeRates.t)
    (Hnan : Exists (fun e => converted rates e = NaN) l) :
  CategorySum.VND (totalSum (categorySums l rates)) = NaN.
Proof.
  apply num_eq_NaN. rewrite totalSum_VND_over_expenses.
  rewrite (sum_NaN (map (fun e => add (nativeVND e) (converted rates e)) l));
    [reflexivity|].
  apply Exists_exists in Hnan. destruct Hnan as [e [Hin He]].
  apply in_map_iff. exists e. split; [|exact Hin].
  rewrite He. apply add_NaN_r.
Qed.

Lemma totalSum_VND_NaN_witness :
  CategorySum.VND
    (totalSum
       (categorySums
          [Expense.make 1 (Num 10) Currency.EUR Other "a";
           Expense.make 2 (Num 5) Currency.USD Groceries "b"]
          (ExchangeRates.make (Num 1) NaN (Num 25000)))) = NaN.
Proof.
  apply (totalSum_VND_NaN
           [Expense.make 1 (Num 10) Currency.EUR Other "a";
            Expense.make 2 (Num 5) Currency.USD Groceries "b"]
           (ExchangeRates.make (Num 1) NaN (Num 25000))).
  apply Exists_cons_tl. apply Exists_cons_hd. reflexivity.
Defined.

(** X21. What an accepted submission does to the page: the category sums
    are those of before with one more round for the new expense, so only the
    accumulator of the form's category changes, by that expense
    accumulated. *)
Theorem handleSubmit_updates_sums (now : Z) (st : Home)
    (Hvalid : isNaN (parseFloat (amount st)) = false) :
  renderCategorySums (handleSubmit now st) =
    addExpense (exchangeRates st) (renderCategorySums st)
               (newExpense now st) /\
  (forall k,
      lookup k (renderCategorySums (handleSubmit now st)) =
      if Category_eqb k (category st)
      then Some (accumulate (exchangeRates st)
                   (accumulator k (renderCategorySums st))
                   (newExpense now st))
      else lookup k (renderCategorySums st)).
Proof.
  assert (H1 : renderCategorySums (handleSubmit now st) =
               addExpense (exchangeRates st) (renderCategorySums st)
                          (newExpense now st)).
  { rewrite (handleSubmit_accepts now st Hvalid).
    unfold renderCategorySums, categorySums. simpl.
    rewrite fold_left_app. reflexivity. }
  split; [exact H1|].
  intros k. rewrite H1. destruct (Category_eqb k (category st)) eqn:E.
  - apply Category_eqb_eq in E. subst k.
    apply (addExpense_lookup_same (exchangeRates st)
             (renderCategorySums st) (newExpense now st)).
  - apply (addExpense_lookup_other (exchangeRates st)
             (renderCategorySums st) (newExpense now st) k E).
Qed.

Lemma handleSubmit_updates_sums_witness :
  isNaN (parseFloat (amount (setAmount "12.50" initial))) = false /\
  renderCategorySums (handleSubmit 3 (setAmount "12.50" initial)) =
    addExpense (exchangeRates (setAmount "12.50" initial))
      (renderCategorySums (setAmount "12.50" initial))
      (newExpense 3 (setAmount "12.50" initial)).
Proof.
  split; [reflexivity|].
  exact (proj1 (handleSubmit_updates_sums 3 (setAmount "12.50" initial)
                  eq_refl)).
Defined.

(* ================================================================== *)
(** ** What the page shows *)

Lemma renderCategory_returns (st : Home) (cat : Category) :
  renderCategory st cat =
    Returned
      match inCategory cat (expenses st) with
      | [] => None
      | e :: l =>
          Some (mkSection cat
                  (map (fun e => (e, converted (exchangeRates st) e)) (e :: l))
                  (CategorySum.EUR (accumulator cat (renderCategorySums st)))
                  (CategorySum.VND (accumulator cat (renderCategorySums st))))
      end.
Proof.
  unfold renderCategory, accumulator, renderCategorySums.
  rewrite categorySums_lookup. unfold inCategory.
  destruct (filter (fun e => Category_eqb (Expense.category e) cat)
                   (expenses st)) as [|e l]; reflexivity.
Qed.

Lemma renderCategories_returns (st : Home) (cats : list Category) :
  renderCategories st cats =
    Returned
      (map (fun cat =>
              match inCategory cat (expenses st) with
              | [] => None
              | e :: l =>
                  Some (mkSection cat
                          (map (fun e => (e, converted (exchangeRates st) e))
                               (e :: l))
                          (CategorySum.EUR
                             (accumulator cat (renderCategorySums st)))
                          (CategorySum.VND
                             (accumulator cat (renderCategorySums st))))
              end) cats).
Proof.
  induction cats as [|cat cats IH]; simpl; [reflexivity|].
  rewrite renderCategory_returns, IH. reflexivity.
Qed.

Lemma render_returns (st : Home) :
  render st =
    Returned
      (mkPage (isLoading st)
         (if isLoading st then "Loading..." else "Add Expense")
         (map (fun cat =>
                 match inCategory cat (expenses st) with
                 | [] => None
                 | e :: l =>
                     Some (mkSection cat
                             (map (fun e =>
                                     (e, converted (exchangeRates st) e))
                                  (e :: l))
                             (CategorySum.EUR
                                (accumulator cat (renderCategorySums st)))
                             (CategorySum.VND
                                (accumulator cat (renderCategorySums st))))
                 end) categories)
         (CategorySum.EUR (renderTotalSum st))
         (CategorySum.VND (renderTotalSum st))).
Proof.
  unfold render. rewrite renderCategories_returns. reflexivity.
Qed.

(** X22. Rendering never fails: whenever a category has an expense to list,
    [categorySums] has an entry for it, so no field of a missing entry is
    read. The page has one slot per entry of [categories], in that order; a
    category without expenses shows nothing, and any other shows its
    expenses in the order they were entered, each with its converted amount,
    and the EUR and VND fields of its accumulator as the category total. *)
Theorem render_never_fails (st : Home) :
  render st =
    Returned
      (mkPage (isLoading st)
         (if isLoading st then "Loading..." else "Add Expense")
         (map (fun cat =>
                 match inCategory cat (expenses st) with
                 | [] => None
                 | e :: l =>
                     Some (mkSection cat
                             (map (fun e =>
                                     (e, converted (exchangeRates st) e))
                                  (e :: l))
                             (CategorySum.EUR
                                (accumulator cat (renderCategorySums st)))
                             (CategorySum.VND
                                (accumulator cat (renderCategorySums st))))
                 end) categories)
         (CategorySum.EUR (renderTotalSum st))
         (CategorySum.VND (renderTotalSum st))).
Proof. apply render_returns. Qed.

Lemma flat_map_inCategory_skip (e : Expense.t) (l : list Expense.t)
    (cats : list Category) :
  ~ In (Expense.category e) cats ->
  flat_map (fun cat => inCategory cat (e :: l)) cats =
  flat_map (fun cat => inCategory cat l) cats.
Proof.
  induction cats as [|c cats IH]; intros H; [reflexivity|].
  cbn [flat_map]. simpl in H. rewrite IH by tauto. f_equal.
  unfold inCategory. cbn [filter].
  destruct (Category_eqb (Expense.category e) c) eqn:E; [|reflexivity].
  apply Category_eqb_eq in E. exfalso. apply H. left. symmetry. exact E.
Qed.

Lemma flat_map_inCategory_cons (e : Expense.t) (l : list Expense.t)
    (cats : list Category) :
  NoDup cats -> In (Expense.category e) cats ->
  Permutation (flat_map (fun cat => inCategory cat (e :: l)) cats)
              (e :: flat_map (fun cat => inCategory cat l) cats).
Proof.
  induction 1 as [|c cats Hnotin Hnd IH]; intros Hin; [destruct Hin|].
  cbn [flat_map]. unfold inCategory at 1. cbn [filter].
  destruct (Category_eqb (Expense.category e) c) eqn:E.
  - apply Category_eqb_eq in E. subst c.
    rewrite (flat_map_inCategory_skip e l cats Hnotin). reflexivity.
  - destruct Hin as [Hc|Hin].
    + subst c. rewrite Category_eqb_refl in E. discriminate.
    + fold (inCategory c l). rewrite (IH Hin).
      symmetry. apply Permutation_middle.
Qed.

Lemma categories_NoDup : NoDup categories.
Proof.
  unfold categories.
  repeat (constructor; [simpl; intuition discriminate|]). constructor.
Qed.

Lemma flat_map_inCategory (l : list Expense.t) :
  Permutation (flat_map (fun cat => inCategory cat l) categories) l.
Proof.
  induction l as [|e l IH]; [reflexivity|].
  rewrite (flat_map_inCategory_cons e l categories categories_NoDup
             (categories_complete _)).
  constructor. exact IH.
Qed.

Lemma listed_blocks (st : Home) (cats : list Category) :
  listed
    (map (fun cat =>
            match inCategory cat (expenses st) with
            | [] => None
            | e :: l =>
                Some (mkSection cat
                        (map (fun e => (e, converted (exchangeRates st) e))
                             (e :: l))
                        (CategorySum.EUR
                           (accumulator cat (renderCategorySums st)))
                        (CategorySum.VND
                           (accumulator cat (renderCategorySums st))))
            end) cats) =
  flat_map (fun cat => inCategory cat (expenses st)) cats.
Proof.
  unfold listed. induction cats as [|cat cats IH]; [reflexivity|].
  rewrite map_cons. cbn [flat_map]. rewrite IH. f_equal.
  destruct (inCategory cat (expenses st)) as [|e l]; [reflexivity|].
  cbn [items]. rewrite map_map. cbn [fst]. apply map_id.
Qed.

(** X23. The page lists every stored expense exactly once: the expenses
    listed under the categories, from top to bottom, are the stored
    sequence rearranged (grouped by category in the order of
    [categories]). *)
Theorem render_lists_every_expense_once (st : Home) :
  match render st with
  | Returned page => Permutation (listed (sections page)) (expenses st)
  | Throws => False
  end.
Proof.
  rewrite render_returns. cbn [sections].
  rewrite listed_blocks. apply flat_map_inCategory.
Qed.

Lemma run_isLoading events : forall st,
  isLoading (run events st) = loadingAfter events (isLoading st).
Proof.
  induction events as [|ev events IH]; intros st; simpl; [reflexivity|].
  rewrite IH. destruct ev as [v|v|v|v|now| |r]; simpl; try reflexivity.
  unfold handleSubmit.
  destruct (negb (truthy (amount st)) || isNaN (parseFloat (amount st)));
    reflexivity.
Qed.

(** X24. The submit button is disabled and reads "Loading..." exactly while
    the loading flag is up, and the flag follows the refresh events alone:
    it goes up when a refresh starts and down when one settles, with rates,
    with a failure or with a body without rates alike, so a failed refresh
    never leaves the button disabled. When two refreshes overlap, the first
    to settle lowers it. *)
Theorem submit_button_follows_refresh (events : list Event) :
  render (run events initial) <> Throws /\
  match render (run events initial) with
  | Returned page =>
      submitDisabled page = loadingAfter events false /\
      submitLabel page =
        (if loadingAfter events false
         then "Loading..."%string else "Add Expense"%string)
  | Throws => True
  end /\
  (forall r, loadingAfter (events ++ [FetchSettle r]) false = false) /\
  loadingAfter (events ++ [FetchStart]) false = true.
Proof.
  rewrite render_returns. cbn [submitDisabled submitLabel].
  rewrite (run_isLoading events initial). cbn [isLoading initial].
  split; [discriminate|]. split; [split; reflexivity|].
  assert (H : forall evs flag ev,
             loadingAfter (evs ++ [ev]) flag =
             loadingAfter [ev] (loadingAfter evs flag)).
  { induction evs as [|e evs IH]; intros flag ev; [reflexivity|].
    destruct e as [v|v|v|v|now| |q]; simpl; apply IH. }
  split; [intros r|]; rewrite H; reflexivity.
Qed.
